(** * result.py: a shallow embedding of the result modal and its helpers

    The module defines three classes ([Result], [OK], [ERROR]), the marker
    class [ErrorType], the helpers [Ok], [Error], [unwrap], [is_error],
    [is_ok] and the class factory [to_error].  Everything the module does
    goes through Python's object model: exact run-time types, attribute
    lookup along the method resolution order, and [__str__]/[__repr__]
    dispatch.  The embedding therefore keeps a class table and an object
    store, and runs the functions of the module in a state-and-exception
    monad over them. *)

From Stdlib Require Import ZArith DecimalString.
From stdpp Require Import base option list strings gmap fin_maps.

Local Open Scope string_scope.

(** ** Values *)

(** Classes and objects are known by their identity. *)
Abbreviation cid := nat (only parsing).
Abbreviation oid := nat (only parsing).

(** The run-time type of a value: one of the builtin types of the values
    modelled here, or a class of the class table. *)
Inductive pytype : Type :=
| ty_NoneType | ty_bool | ty_int | ty_str | ty_type | ty_function
| ty_class (c : cid).

(** The functions the module defines, one constructor per [def] or
    [lambda] of result.py, and the two slots of [object] the classes
    inherit. The lambda that renders an error kind is a closure over the
    arguments of [to_error]. *)
Inductive pyfun : Type :=
| fn_Result_repr | fn_Result_str | fn_Result_match
| fn_OK_init | fn_OK_repr | fn_OK_str
| fn_ErrorType_str
| fn_ERROR_init | fn_ERROR_repr | fn_ERROR_str
| fn_kind_repr (name explanation : string)
| fn_kind_str
| fn_object_init | fn_object_repr | fn_object_str.

Inductive pyval : Type :=
| VNone
| VBool (b : bool)
| VInt (z : Z)
| VStr (s : string)
| VType (t : pytype)
| VFun (f : pyfun)
| VRef (o : oid).

Global Instance pytype_eq_dec : EqDecision pytype.
Proof. solve_decision. Defined.
Global Instance pyfun_eq_dec : EqDecision pyfun.
Proof. solve_decision. Defined.
Global Instance pyval_eq_dec : EqDecision pyval.
Proof. solve_decision. Defined.

(** ** Classes, objects, state *)

Record pyclass : Type := PyClass {
  cls_name : string;
  cls_mro : list cid;              (* the class itself first, [object] last *)
  cls_dict : gmap string pyval
}.

Record object : Type := Object {
  ob_type : cid;
  ob_dict : gmap string pyval
}.

(** [user_classes] are the classes created while the program runs; they
    come after the classes of the module in the class table.
    [impl_text] is the text the interpreter prints for values that have no
    rendering of their own (classes, functions, objects that fall back on
    [object.__repr__], which prints an address). *)
Record state : Type := State {
  user_classes : list pyclass;
  heap : list object;
  impl_text : pyval → string
}.

(** ** Exceptions and the execution monad *)

Inductive exn : Type :=
| Exception (msg : string)
| AssertionError
| AttributeError (name : string)
| TypeError
| ValueError
| UnicodeEncodeError
| RecursionError
| SystemError.                      (* a reference to nothing: no Python program has one *)

Inductive outcome (A : Type) : Type :=
| Returned (a : A)
| Raised (e : exn).
Arguments Returned {A} a.
Arguments Raised {A} e.

Definition M (A : Type) : Type := state → outcome A * state.

Definition ret {A} (a : A) : M A := λ st, (Returned a, st).
Definition raise {A} (e : exn) : M A := λ st, (Raised e, st).
Definition bind {A B} (c : M A) (k : A → M B) : M B :=
  λ st, match c st with
        | (Returned a, st') => k a st'
        | (Raised e, st') => (Raised e, st')
        end.

Notation "x <- c ;; k" := (bind c (λ x, k))
  (at level 100, c at next level, right associativity).
Notation "c ;;; k" := (bind c (λ _, k))
  (at level 100, right associativity).

(** [try: body except AssertionError: handler]: only an [AssertionError]
    is caught, any other exception goes through. *)
Definition try_except_AssertionError {A} (body handler : M A) : M A :=
  λ st, match body st with
        | (Raised AssertionError, st') => handler st'
        | r => r
        end.

(** [assert cond], with assertions on, as the interpreter runs unless it
    is told otherwise. *)
Definition py_assert (cond : bool) : M unit :=
  if cond then ret tt else raise AssertionError.

(** Reading the state: [None] is a reference to nothing. *)
Definition read {A} (f : state → option A) (e : exn) : M A :=
  λ st, match f st with
        | Some a => (Returned a, st)
        | None => (Raised e, st)
        end.

(** ** The classes of the module *)

Definition object_ : cid := 0.
Definition Result : cid := 1.
Definition OK : cid := 2.
Definition ErrorType : cid := 3.
Definition ERROR : cid := 4.

Definition class_object : pyclass :=
  PyClass "object" [object_]
    {[ "__init__" := VFun fn_object_init;
       "__repr__" := VFun fn_object_repr;
       "__str__" := VFun fn_object_str ]}.

(** class Result: pyval = ""; type = None; __repr__; __str__; match *)
Definition class_Result : pyclass :=
  PyClass "Result" [Result; object_]
    {[ "value" := VStr "";
       "type" := VNone;
       "__repr__" := VFun fn_Result_repr;
       "__str__" := VFun fn_Result_str;
       "match" := VFun fn_Result_match ]}.

(** class OK(Result): __init__; __repr__; __str__ *)
Definition class_OK : pyclass :=
  PyClass "OK" [OK; Result; object_]
    {[ "__init__" := VFun fn_OK_init;
       "__repr__" := VFun fn_OK_repr;
       "__str__" := VFun fn_OK_str ]}.

(** class ErrorType: __str__ *)
Definition class_ErrorType : pyclass :=
  PyClass "ErrorType" [ErrorType; object_]
    {[ "__str__" := VFun fn_ErrorType_str ]}.

(** class ERROR(Result): __init__; __repr__; __str__ *)
Definition class_ERROR : pyclass :=
  PyClass "ERROR" [ERROR; Result; object_]
    {[ "__init__" := VFun fn_ERROR_init;
       "__repr__" := VFun fn_ERROR_repr;
       "__str__" := VFun fn_ERROR_str ]}.

Definition module_classes : list pyclass :=
  [class_object; class_Result; class_OK; class_ErrorType; class_ERROR].

Definition classes (st : state) : list pyclass :=
  module_classes ++ user_classes st.

Definition class_of (st : state) (c : cid) : option pyclass :=
  classes st !! c.

(** The state in which the module has just been imported. *)
Definition init_state (text : pyval → string) : state :=
  State [] [] text.

(** ** The object model *)

(** [type(v)] *)
Definition type_of (st : state) (v : pyval) : option pytype :=
  match v with
  | VNone => Some ty_NoneType
  | VBool _ => Some ty_bool
  | VInt _ => Some ty_int
  | VStr _ => Some ty_str
  | VType _ => Some ty_type
  | VFun _ => Some ty_function
  | VRef o => ty_class ∘ ob_type <$> heap st !! o
  end.

Definition py_type (v : pyval) : M pytype :=
  read (λ st, type_of st v) SystemError.

(** The first class along a method resolution order whose own dictionary
    has the name. *)
Fixpoint mro_find (st : state) (mro : list cid) (name : string) : option pyval :=
  match mro with
  | [] => None
  | c :: rest =>
      match class_of st c ≫= (λ k, cls_dict k !! name) with
      | Some v => Some v
      | None => mro_find st rest name
      end
  end.

(** Lookup of a name on a class. *)
Definition class_lookup (st : state) (c : cid) (name : string) : option pyval :=
  class_of st c ≫= (λ k, mro_find st (cls_mro k) name).

(** [v.name]: the dictionary of the instance first, then its class; on a
    class, the class and its bases. The builtin values have none of the
    attributes the module reads ([value], [name]). *)
Definition getattr (v : pyval) (name : string) : M pyval :=
  λ st,
    match v with
    | VRef o =>
        match heap st !! o with
        | None => (Raised SystemError, st)
        | Some ob =>
            match ob_dict ob !! name with
            | Some x => (Returned x, st)
            | None =>
                match class_lookup st (ob_type ob) name with
                | Some x => (Returned x, st)
                | None => (Raised (AttributeError name), st)
                end
            end
        end
    | VType (ty_class c) =>
        match class_lookup st c name with
        | Some x => (Returned x, st)
        | None => (Raised (AttributeError name), st)
        end
    | _ => (Raised (AttributeError name), st)
    end.

(** The state with another object store. *)
Definition set_heap (h : list object) (st : state) : state :=
  State (user_classes st) h (impl_text st).

(** [self.name = x] on an instance. *)
Definition setattr (self : oid) (name : string) (x : pyval) : M unit :=
  λ st,
    match heap st !! self with
    | None => (Raised SystemError, st)
    | Some ob =>
        (Returned tt,
         set_heap (<[self := Object (ob_type ob) (<[name := x]> (ob_dict ob))]> (heap st)) st)
    end.

(** [object.__new__(cls)]: a fresh instance with an empty dictionary. *)
Definition alloc (c : cid) : M oid :=
  λ st, (Returned (length (heap st)), set_heap (heap st ++ [Object c ∅]) st).

(** ** Rendering: [str], [repr] and the functions behind them *)

(** [str(z)] for an int. *)
Definition decimal (z : Z) : string := NilZero.string_of_int (Z.to_int z).

Section render.
(** [rec f self] runs the function [f] on the instance [self], one frame
    deeper. *)
Variable rec : pyfun → oid → M string.

(** [type(self).name(self)], the way [str] and [repr] find the slot. *)
Definition special (self : oid) (name : string) : M string :=
  m <- read (λ st, heap st !! self ≫= λ ob, Some (class_lookup st (ob_type ob) name))
            SystemError ;;
  match m with
  | Some (VFun f) => rec f self
  | _ => raise TypeError
  end.

(** [self.name()]: a callable found in the dictionary of the instance
    is not bound to [self], and every function here takes [self]. *)
Definition method (self : oid) (name : string) : M string :=
  ob <- read (λ st, heap st !! self) SystemError ;;
  match ob_dict ob !! name with
  | Some _ => raise TypeError
  | None => special self name
  end.

(** [str(v)], which is also [format(v, "")], what an f-string applies
    to a field. *)
Definition str_with (v : pyval) : M string :=
  match v with
  | VNone => ret "None"
  | VBool b => ret (if b then "True" else "False")
  | VInt z => ret (decimal z)
  | VStr s => ret s
  | VType _ | VFun _ => λ st, (Returned (impl_text st v), st)
  | VRef o => special o "__str__"
  end.

Definition call_body (f : pyfun) (self : oid) : M string :=
  match f with
  | fn_Result_repr =>
      (* return f"Result<{self.value}>" *)
      x <- getattr (VRef self) "value" ;;
      s <- str_with x ;;
      ret ("Result<" +:+ s +:+ ">")
  | fn_OK_repr =>
      (* return f"Ok({self.value})" *)
      x <- getattr (VRef self) "value" ;;
      s <- str_with x ;;
      ret ("Ok(" +:+ s +:+ ")")
  | fn_ERROR_repr =>
      (* return f"Error({self.value})" *)
      x <- getattr (VRef self) "value" ;;
      s <- str_with x ;;
      ret ("Error(" +:+ s +:+ ")")
  | fn_Result_str | fn_OK_str | fn_ERROR_str | fn_kind_str =>
      (* return self.__repr__() *)
      method self "__repr__"
  | fn_ErrorType_str =>
      (* return "" *)
      ret ""
  | fn_kind_repr name explanation =>
      (* lambda self: f"{name}, {explanation}" *)
      ret (name +:+ ", " +:+ explanation)
  | fn_object_str =>
      special self "__repr__"
  | fn_object_repr =>
      λ st, (Returned (impl_text st (VRef self)), st)
  | fn_Result_match | fn_OK_init | fn_ERROR_init | fn_object_init =>
      (* too few arguments, or a result that is not a string *)
      raise TypeError
  end.
End render.

(** [depth] is what is left of the recursion limit. *)
Fixpoint call (depth : nat) (f : pyfun) (self : oid) : M string :=
  match depth with
  | 0 => raise RecursionError
  | S d => call_body (call d) f self
  end.

Definition py_str (depth : nat) (v : pyval) : M string := str_with (call depth) v.

(** ** Creating instances and classes *)

(** OK.__init__ and ERROR.__init__ have the same body:
    self.value = value; self.type = type(value) *)
Definition OK_init (self : oid) (value : pyval) : M unit :=
  setattr self "value" value ;;;
  t <- py_type value ;;
  setattr self "type" (VType t).

Definition ERROR_init (self : oid) (value : pyval) : M unit :=
  setattr self "value" value ;;;
  t <- py_type value ;;
  setattr self "type" (VType t).

(** [cls(args)]: a new instance, then the [__init__] the class finds
    along its method resolution order. *)
Definition instantiate (c : cid) (args : list pyval) : M pyval :=
  init <- read (λ st, class_of st c ≫= λ _, Some (class_lookup st c "__init__")) SystemError ;;
  self <- alloc c ;;
  match init, args with
  | Some (VFun fn_OK_init), [value] => OK_init self value
  | Some (VFun fn_ERROR_init), [value] => ERROR_init self value
  | Some (VFun fn_object_init), [] => ret tt
  | _, _ => raise TypeError
  end ;;;
  ret (VRef self).

(** The state with one more class. *)
Definition add_class (k : pyclass) (st : state) : state :=
  State (user_classes st ++ [k]) (heap st) (impl_text st).

(** A string here is a Python string in UTF-8. The builtin [type] does
    not take every string as the name of a class: it encodes the name in
    UTF-8, which fails on a surrogate code point, and then refuses a name
    with a NUL character in it. A surrogate, U+D800 to U+DFFF, which no
    valid UTF-8 has, is written here in the three bytes the encoding
    would give it: ED, then A0 to BF, then one more. *)
Fixpoint has_nul (s : string) : bool :=
  match s with
  | EmptyString => false
  | String c rest => (Ascii.N_of_ascii c =? 0)%N || has_nul rest
  end.

Fixpoint has_surrogate (s : string) : bool :=
  match s with
  | String c (String c' _ as rest) =>
      ((Ascii.N_of_ascii c =? 237)%N && (160 <=? Ascii.N_of_ascii c')%N && (Ascii.N_of_ascii c' <=? 191)%N)
      || has_surrogate rest
  | _ => false
  end.

Definition class_name_ok (name : string) : bool :=
  negb (has_surrogate name) && negb (has_nul name).

(** [type(name, (base,), dict)]: a new class, with a new identity, or
    [UnicodeEncodeError] or [ValueError] for a name [type] refuses. The
    module passes a tuple with one base. *)
Definition type_new (name : string) (base : cid) (dict : gmap string pyval) : M cid :=
  λ st,
    match class_of st base with
    | None => (Raised SystemError, st)
    | Some b =>
        if has_surrogate name then (Raised UnicodeEncodeError, st)
        else if has_nul name then (Raised ValueError, st)
        else
          let c := length (classes st) in
          (Returned c, add_class (PyClass name (c :: cls_mro b) dict) st)
    end.

(** ** The functions of the module *)

(** def Ok(value): return OK(value) *)
Definition Ok (value : pyval) : M pyval := instantiate OK [value].

(** def Error(value): return ERROR(value) *)
Definition Error (value : pyval) : M pyval := instantiate ERROR [value].

(** def unwrap(value):
      try: assert type(value) != ERROR
      except AssertionError: raise Exception(f"Unwrapping error : {value}")
      return value.value *)
Definition unwrap (depth : nat) (value : pyval) : M pyval :=
  try_except_AssertionError
    (t <- py_type value ;;
     py_assert (bool_decide (t ≠ ty_class ERROR)))
    (s <- py_str depth value ;;
     raise (Exception ("Unwrapping error : " +:+ s))) ;;;
  getattr value "value".

(** def is_error(value): return type(value) == ERROR *)
Definition is_error (value : pyval) : M bool :=
  t <- py_type value ;;
  ret (bool_decide (t = ty_class ERROR)).

(** def is_ok(value): return type(value) == OK *)
Definition is_ok (value : pyval) : M bool :=
  t <- py_type value ;;
  ret (bool_decide (t = ty_class OK)).

(** def match(self, ok, error):
      if type(self) == OK: return ok(self.value)
      else: return error(self.value) *)
Definition Result_match {R} (self : pyval) (ok error : pyval → M R) : M R :=
  t <- py_type self ;;
  if bool_decide (t = ty_class OK)
  then (x <- getattr self "value" ;; ok x)
  else (x <- getattr self "value" ;; error x).

(** def to_error(name, explanation):
      return type(name, (ErrorType,),
                  {"__repr__": lambda self: f"{name}, {explanation}",
                   "__str__": lambda self: self.__repr__(),
                   "name": name}) *)
Definition to_error (name explanation : string) : M pyval :=
  c <- type_new name ErrorType
         {[ "__repr__" := VFun (fn_kind_repr name explanation);
            "__str__" := VFun fn_kind_str;
            "name" := VStr name ]} ;;
  ret (VType (ty_class c)).

(** ** Notions the statements use *)

(** A value of the store: a reference refers to an object. *)
Definition live (st : state) (v : pyval) : Prop := is_Some (type_of st v).

(** The instance [OK(value)] and [ERROR(value)] leave in the store. *)
Definition built (c : cid) (value : pyval) (t : pytype) : object :=
  Object c (<["type" := VType t]> (<["value" := value]> ∅)).

(** A computation that leaves the state as it is. *)
Definition readonly {A} (c : M A) : Prop := ∀ st, (c st).2 = st.

(** [t] has [s] as a substring. *)
Definition contains (s t : string) : Prop := ∃ a b, t = a +:+ s +:+ b.

(** The outcome [constructor(v)] renders as [opening], the rendering of
    [v], and a closing parenthesis. *)
Definition rendered (constructor : pyval → M pyval) (opening : string)
    (st : state) (v : pyval) : Prop :=
  ∃ o st', constructor v st = (Returned o, st') ∧
    ∀ d s, py_str d v st' = (Returned s, st') →
      py_str (S (S d)) o st' = (Returned (opening +:+ s +:+ ")"), st') ∧
      contains s (opening +:+ s +:+ ")").

(** The class [to_error(name, explanation)] creates when it is the
    [c]-th class. *)
Definition kind_class (name explanation : string) (c : cid) : pyclass :=
  PyClass name [c; ErrorType; object_]
    {[ "__repr__" := VFun (fn_kind_repr name explanation);
       "__str__" := VFun fn_kind_str;
       "name" := VStr name ]}.

(** What a client does with the module: the six functions, [match],
    string rendering, and creating an instance of a class. The handlers
    given to [match] compute their result from their argument. *)
Inductive api_call : Type :=
| call_Ok (value : pyval)
| call_Error (value : pyval)
| call_unwrap (depth : nat) (value : pyval)
| call_is_error (value : pyval)
| call_is_ok (value : pyval)
| call_match (self : pyval) (ok error : pyval → pyval)
| call_str (depth : nat) (value : pyval)
| call_to_error (name explanation : string)
| call_new (c : cid) (args : list pyval).

Definition run (a : api_call) : M pyval :=
  match a with
  | call_Ok v => Ok v
  | call_Error v => Error v
  | call_unwrap d v => unwrap d v
  | call_is_error v => b <- is_error v ;; ret (VBool b)
  | call_is_ok v => b <- is_ok v ;; ret (VBool b)
  | call_match self ok error =>
      Result_match self (λ x, ret (ok x)) (λ x, ret (error x))
  | call_str d v => s <- py_str d v ;; ret (VStr s)
  | call_to_error name explanation => to_error name explanation
  | call_new c args => instantiate c args
  end.

(** The state after a sequence of calls; a call that raises is caught by
    the client, who goes on. *)
Definition run_calls (calls : list api_call) (st : state) : state :=
  foldl (λ st a, (run a st).2) st calls.

(** The client builds outcomes with [Ok] and [Error] (or the classes [OK]
    and [ERROR] behind them); it does not instantiate the base class. *)
Definition permitted (a : api_call) : Prop :=
  match a with
  | call_new c _ => c ≠ Result
  | _ => True
  end.

Inductive reachable : state → Prop :=
| reachable_init (text : pyval → string) : reachable (init_state text)
| reachable_step (st : state) (a : api_call) :
    reachable st → permitted a → reachable (run a st).2.

(** [isinstance(v, c)] *)
Definition isinstance (st : state) (v : pyval) (c : cid) : Prop :=
  ∃ t k, type_of st v = Some (ty_class t) ∧ class_of st t = Some k ∧ c ∈ cls_mro k.

(** [c] keeps [P] true. *)
Definition preserves {A} (P : state → Prop) (c : M A) : Prop :=
  ∀ st, P st → P (c st).2.

(** The classes that derive [Result] are the three of the module, and no
    object is an instance of [Result] itself. *)
Definition classes_inv (st : state) : Prop :=
  ∀ c k, class_of st c = Some k → Result ∈ cls_mro k → c = Result ∨ c = OK ∨ c = ERROR.

Definition heap_inv (st : state) : Prop :=
  ∀ o ob, heap st !! o = Some ob → ob_type ob ≠ Result.

Definition inv (st : state) : Prop := classes_inv st ∧ heap_inv st.

(** [st'] has the objects and the classes of [st], as they are in [st],
    and possibly more. *)
Definition extends (st st' : state) : Prop :=
  heap st `prefix_of` heap st' ∧
  user_classes st `prefix_of` user_classes st' ∧
  impl_text st' = impl_text st.

(** Every class a method resolution order names is in the class table. *)
Definition mro_closed (st : state) : Prop :=
  ∀ c k, class_of st c = Some k → Forall (λ b, is_Some (class_of st b)) (cls_mro k).

(** A value without attributes of its own to look up: not an instance
    and not a class of the class table. *)
Definition plain (v : pyval) : Prop :=
  match v with
  | VRef _ | VType (ty_class _) => False
  | _ => True
  end.


(** ** Concrete states *)

(** "a\0b", with a NUL character, and the surrogate U+D800 alone. *)
Definition nul_name : string := "a" +:+ String Ascii.zero "b".
Definition surrogate_name : string :=
  String (Ascii.ascii_of_nat 237)
    (String (Ascii.ascii_of_nat 160) (String (Ascii.ascii_of_nat 128) "")).

(** The module has just been imported. *)
Definition plain_text : pyval → string := λ _, "<object>".
Definition start : state := init_state plain_text.

(** DivideByZeroError = to_error("DivideByZeroError", "Cannot divide by zero")
    and the outcomes of divide(1, 0), an [Error] around an instance of it,
    and of divide(1, 1); the result of the division is left as the int 1. *)
Definition divide_calls : list api_call :=
  [call_to_error "DivideByZeroError" "Cannot divide by zero";
   call_new 5 [];
   call_Error (VRef 0);
   call_Ok (VInt 1)].
Definition divide_state : state := run_calls divide_calls start.

(** class Special(OK): pass, and Special(1) *)
Definition special_state : state :=
  ((c <- type_new "Special" OK ∅ ;; instantiate c [VInt 1]) start).2.

(** * Properties *)

(** ** The monad *)

Lemma bind_Returned {A B} (c : M A) (k : A → M B) st a st' :
  c st = (Returned a, st') → bind c k st = k a st'.
Proof. unfold bind. by intros ->. Qed.

Lemma bind_Raised {A B} (c : M A) (k : A → M B) st e st' :
  c st = (Raised e, st') → bind c k st = (Raised e, st').
Proof. unfold bind. by intros ->. Qed.

Lemma read_Some {A} (f : state → option A) e st a :
  f st = Some a → read f e st = (Returned a, st).
Proof. unfold read. by intros ->. Qed.

Lemma py_type_Some st v t : type_of st v = Some t → py_type v st = (Returned t, st).
Proof. intros H. exact (read_Some (λ st, type_of st v) SystemError st t H). Qed.

(** ** The object model *)

Lemma class_of_module (st : state) (c : cid) (k : pyclass) :
  module_classes !! c = Some k → class_of st c = Some k.
Proof. intros H. unfold class_of, classes. by apply lookup_app_l_Some. Qed.

Lemma class_of_set_heap (h : list object) (st : state) (c : cid) :
  class_of (set_heap h st) c = class_of st c.
Proof. reflexivity. Qed.

Lemma mro_find_set_heap (h : list object) (st : state) (mro : list cid) (name : string) :
  mro_find (set_heap h st) mro name = mro_find st mro name.
Proof. induction mro as [|c rest IH]; [done|]. simpl. by rewrite IH. Qed.

Lemma class_lookup_set_heap (h : list object) (st : state) (c : cid) (name : string) :
  class_lookup (set_heap h st) c name = class_lookup st c name.
Proof.
  unfold class_lookup. rewrite class_of_set_heap.
  destruct (class_of st c); simpl; [apply mro_find_set_heap | done].
Qed.

(** What the classes of the module find, in every state. *)
Lemma lookup_OK_init st : class_lookup st OK "__init__" = Some (VFun fn_OK_init).
Proof. reflexivity. Qed.
Lemma lookup_ERROR_init st : class_lookup st ERROR "__init__" = Some (VFun fn_ERROR_init).
Proof. reflexivity. Qed.
Lemma lookup_Result_init st : class_lookup st Result "__init__" = Some (VFun fn_object_init).
Proof. reflexivity. Qed.
Lemma lookup_OK_str st : class_lookup st OK "__str__" = Some (VFun fn_OK_str).
Proof. reflexivity. Qed.
Lemma lookup_OK_repr st : class_lookup st OK "__repr__" = Some (VFun fn_OK_repr).
Proof. reflexivity. Qed.
Lemma lookup_ERROR_str st : class_lookup st ERROR "__str__" = Some (VFun fn_ERROR_str).
Proof. reflexivity. Qed.
Lemma lookup_ERROR_repr st : class_lookup st ERROR "__repr__" = Some (VFun fn_ERROR_repr).
Proof. reflexivity. Qed.
Lemma lookup_OK_value st : class_lookup st OK "value" = Some (VStr "").
Proof. reflexivity. Qed.
Lemma lookup_Result_value st : class_lookup st Result "value" = Some (VStr "").
Proof. reflexivity. Qed.

Lemma type_of_grow (st : state) (more : list object) (v : pyval) (t : pytype) :
  type_of st v = Some t → type_of (set_heap (heap st ++ more) st) v = Some t.
Proof.
  destruct v; simpl; try done.
  destruct (heap st !! o) as [ob|] eqn:E; [|done].
  by rewrite (lookup_app_l_Some _ _ _ _ E).
Qed.

Lemma set_heap_twice (h h' : list object) (st : state) :
  set_heap h (set_heap h' st) = set_heap h st.
Proof. reflexivity. Qed.

Lemma setattr_last (st : state) (h : list object) (c : cid) (d : gmap string pyval)
    (name : string) (x : pyval) :
  setattr (length h) name x (set_heap (h ++ [Object c d]) st)
  = (Returned tt, set_heap (h ++ [Object c (<[name := x]> d)]) st).
Proof.
  unfold setattr. simpl. rewrite list_lookup_middle by done. simpl.
  rewrite set_heap_twice. do 2 f_equal.
  replace (length h) with (length h + 0) at 1 by lia.
  by rewrite insert_app_r.
Qed.

Lemma init_spec (c : cid) (st : state) (value : pyval) (t : pytype) :
  type_of st value = Some t →
  (setattr (length (heap st)) "value" value ;;;
   t <- py_type value ;;
   setattr (length (heap st)) "type" (VType t))
    (set_heap (heap st ++ [Object c ∅]) st)
  = (Returned tt, set_heap (heap st ++ [built c value t]) st).
Proof.
  intros Ht.
  rewrite (bind_Returned _ _ _ _ _ (setattr_last st (heap st) c ∅ "value" value)).
  rewrite (bind_Returned _ _ _ t _ (py_type_Some _ _ _ (type_of_grow st _ value t Ht))).
  apply setattr_last.
Qed.

Lemma Ok_spec (st : state) (value : pyval) (t : pytype) :
  type_of st value = Some t →
  Ok value st = (Returned (VRef (length (heap st))),
                 set_heap (heap st ++ [built OK value t]) st).
Proof.
  intros Ht. unfold Ok, instantiate.
  rewrite (bind_Returned _ _ st (Some (VFun fn_OK_init)) st) by done.
  rewrite (bind_Returned _ _ st (length (heap st)) (set_heap (heap st ++ [Object OK ∅]) st)) by done.
  by rewrite (bind_Returned _ _ _ _ _ (init_spec OK st value t Ht)).
Qed.

Lemma Error_spec (st : state) (value : pyval) (t : pytype) :
  type_of st value = Some t →
  Error value st = (Returned (VRef (length (heap st))),
                    set_heap (heap st ++ [built ERROR value t]) st).
Proof.
  intros Ht. unfold Error, instantiate.
  rewrite (bind_Returned _ _ st (Some (VFun fn_ERROR_init)) st) by done.
  rewrite (bind_Returned _ _ st (length (heap st)) (set_heap (heap st ++ [Object ERROR ∅]) st)) by done.
  by rewrite (bind_Returned _ _ _ _ _ (init_spec ERROR st value t Ht)).
Qed.

(** ** An instance in the store *)

Lemma type_of_ref (st : state) (o : oid) (ob : object) :
  heap st !! o = Some ob → type_of st (VRef o) = Some (ty_class (ob_type ob)).
Proof. simpl. by intros ->. Qed.

Lemma getattr_own (st : state) (o : oid) (ob : object) (name : string) (x : pyval) :
  heap st !! o = Some ob → ob_dict ob !! name = Some x →
  getattr (VRef o) name st = (Returned x, st).
Proof. unfold getattr. by intros -> ->. Qed.

Lemma getattr_class (st : state) (o : oid) (ob : object) (name : string) (x : pyval) :
  heap st !! o = Some ob → ob_dict ob !! name = None →
  class_lookup st (ob_type ob) name = Some x →
  getattr (VRef o) name st = (Returned x, st).
Proof. unfold getattr. by intros -> -> ->. Qed.

Lemma special_spec rec (st : state) (o : oid) (ob : object) (name : string) (f : pyfun) :
  heap st !! o = Some ob →
  class_lookup st (ob_type ob) name = Some (VFun f) →
  special rec o name st = rec f o st.
Proof.
  intros Ho Hf. unfold special.
  rewrite (bind_Returned _ _ st (Some (VFun f)) st); [done|].
  apply read_Some. by rewrite Ho; simpl; rewrite Hf.
Qed.

Lemma method_spec rec (st : state) (o : oid) (ob : object) (name : string) (f : pyfun) :
  heap st !! o = Some ob → ob_dict ob !! name = None →
  class_lookup st (ob_type ob) name = Some (VFun f) →
  method rec o name st = rec f o st.
Proof.
  intros Ho Hd Hf. unfold method.
  rewrite (bind_Returned _ _ st ob st) by by apply read_Some.
  rewrite Hd. by eapply special_spec.
Qed.

Lemma built_lookup (h : list object) (st : state) (c : cid) (v : pyval) (t : pytype) :
  heap (set_heap (h ++ [built c v t]) st) !! length h = Some (built c v t).
Proof. simpl. by apply list_lookup_middle. Qed.

Lemma built_value (c : cid) (v : pyval) (t : pytype) :
  ob_dict (built c v t) !! "value" = Some v.
Proof. simpl. by simplify_map_eq. Qed.

Lemma built_no_repr (c : cid) (v : pyval) (t : pytype) :
  ob_dict (built c v t) !! "__repr__" = None.
Proof. simpl. by simplify_map_eq. Qed.

(** ** unwrap, is_ok, is_error, match on a value of known type *)

Lemma unwrap_not_ERROR (depth : nat) (st : state) (x : pyval) (t : pytype) :
  type_of st x = Some t → t ≠ ty_class ERROR →
  unwrap depth x st = getattr x "value" st.
Proof.
  intros Ht Hne. unfold unwrap, bind at 1, try_except_AssertionError.
  rewrite (bind_Returned _ _ _ _ _ (py_type_Some st x t Ht)).
  by rewrite bool_decide_true.
Qed.

Lemma unwrap_ERROR (depth : nat) (st : state) (x : pyval) :
  type_of st x = Some (ty_class ERROR) →
  unwrap depth x st
  = (s <- py_str depth x ;; raise (Exception ("Unwrapping error : " +:+ s))) st.
Proof.
  intros Ht. unfold unwrap, bind at 1, try_except_AssertionError.
  rewrite (bind_Returned _ _ _ _ _ (py_type_Some st x _ Ht)).
  rewrite bool_decide_false by (intros H; by apply H). simpl.
  unfold bind, raise. by destruct (py_str depth x st) as [[s|e] st'].
Qed.

Lemma is_ok_spec (st : state) (x : pyval) (t : pytype) :
  type_of st x = Some t → is_ok x st = (Returned (bool_decide (t = ty_class OK)), st).
Proof. intros Ht. unfold is_ok. by rewrite (bind_Returned _ _ _ _ _ (py_type_Some st x t Ht)). Qed.

Lemma is_error_spec (st : state) (x : pyval) (t : pytype) :
  type_of st x = Some t → is_error x st = (Returned (bool_decide (t = ty_class ERROR)), st).
Proof. intros Ht. unfold is_error. by rewrite (bind_Returned _ _ _ _ _ (py_type_Some st x t Ht)). Qed.

Lemma match_OK {R} (st : state) (self : pyval) (ok error : pyval → M R) :
  type_of st self = Some (ty_class OK) →
  Result_match self ok error st = (x <- getattr self "value" ;; ok x) st.
Proof.
  intros Ht. unfold Result_match.
  rewrite (bind_Returned _ _ _ _ _ (py_type_Some st self _ Ht)).
  by rewrite bool_decide_true.
Qed.

Lemma match_not_OK {R} (st : state) (self : pyval) (t : pytype) (ok error : pyval → M R) :
  type_of st self = Some t → t ≠ ty_class OK →
  Result_match self ok error st = (x <- getattr self "value" ;; error x) st.
Proof.
  intros Ht Hne. unfold Result_match.
  rewrite (bind_Returned _ _ _ _ _ (py_type_Some st self _ Ht)).
  by rewrite bool_decide_false.
Qed.

(** ** Computations that leave the state as it is *)

Lemma readonly_ret {A} (a : A) : readonly (ret a).
Proof. done. Qed.

Lemma readonly_raise {A} (e : exn) : readonly (@raise A e).
Proof. done. Qed.

Lemma readonly_read {A} (f : state → option A) (e : exn) : readonly (read f e).
Proof. intros st. unfold read. by destruct (f st). Qed.

Lemma readonly_bind {A B} (c : M A) (k : A → M B) :
  readonly c → (∀ a, readonly (k a)) → readonly (bind c k).
Proof.
  intros Hc Hk st. unfold bind. specialize (Hc st).
  destruct (c st) as [[a|e] st']; simpl in *; subst; [apply Hk | done].
Qed.

Lemma readonly_try {A} (body handler : M A) :
  readonly body → readonly handler → readonly (try_except_AssertionError body handler).
Proof.
  intros Hb Hh st. unfold try_except_AssertionError. specialize (Hb st).
  destruct (body st) as [[a|[]] st']; simpl in *; subst; done || apply Hh.
Qed.

Lemma readonly_getattr (v : pyval) (name : string) : readonly (getattr v name).
Proof.
  intros st. unfold getattr. destruct v as [| | | |[]| |o]; try done.
  - by destruct (class_lookup st c name).
  - destruct (heap st !! o) as [ob|]; [|done].
    destruct (ob_dict ob !! name); [done|].
    by destruct (class_lookup st (ob_type ob) name).
Qed.

Create HintDb readonly.

Global Hint Resolve readonly_ret readonly_raise readonly_read readonly_bind
  readonly_try readonly_getattr : readonly.

Section render_readonly.
Variable rec : pyfun → oid → M string.
Hypothesis rec_readonly : ∀ f self, readonly (rec f self).

Lemma readonly_special self name : readonly (special rec self name).
Proof.
  unfold special. apply readonly_bind; [auto with readonly|].
  intros [[]|]; auto with readonly.
Qed.

Lemma readonly_method self name : readonly (method rec self name).
Proof.
  unfold method. apply readonly_bind; [auto with readonly|].
  intros ob. destruct (ob_dict ob !! name); [auto with readonly|].
  apply readonly_special.
Qed.

Lemma readonly_str_with v : readonly (str_with rec v).
Proof. destruct v; simpl; auto using readonly_special with readonly; done. Qed.

Lemma readonly_call_body f self : readonly (call_body rec f self).
Proof.
  destruct f; simpl;
    auto 6 using readonly_special, readonly_method, readonly_str_with with readonly;
    done.
Qed.
End render_readonly.

Lemma readonly_call (depth : nat) (f : pyfun) (self : oid) : readonly (call depth f self).
Proof.
  revert f self. induction depth as [|d IH]; intros f self; simpl.
  - apply readonly_raise.
  - by apply readonly_call_body.
Qed.

Lemma readonly_py_str (depth : nat) (v : pyval) : readonly (py_str depth v).
Proof. apply readonly_str_with, readonly_call. Qed.

Lemma readonly_py_type (v : pyval) : readonly (py_type v).
Proof. apply readonly_read. Qed.

Lemma readonly_unwrap (depth : nat) (value : pyval) : readonly (unwrap depth value).
Proof.
  unfold unwrap. apply readonly_bind; [|auto with readonly].
  apply readonly_try.
  - apply readonly_bind; [apply readonly_py_type|].
    intros t. unfold py_assert. case_bool_decide; auto with readonly.
  - apply readonly_bind; [apply readonly_py_str | auto with readonly].
Qed.

Lemma readonly_is_error (value : pyval) : readonly (is_error value).
Proof. unfold is_error. apply readonly_bind; [apply readonly_py_type | auto with readonly]. Qed.

Lemma readonly_is_ok (value : pyval) : readonly (is_ok value).
Proof. unfold is_ok. apply readonly_bind; [apply readonly_py_type | auto with readonly]. Qed.

(** [match] itself changes nothing: what changes is what the handler it
    calls changes. *)
Lemma readonly_match {R} (self : pyval) (ok error : pyval → M R) :
  (∀ x, readonly (ok x)) → (∀ x, readonly (error x)) →
  readonly (Result_match self ok error).
Proof.
  intros Hok Herr. unfold Result_match.
  apply readonly_bind; [apply readonly_py_type|].
  intros t. case_bool_decide; auto with readonly.
Qed.

(** A computation that leaves the state alone and does not return
    raises. *)
Lemma readonly_result {A} (c : M A) (st : state) :
  readonly c → ∃ r, c st = (r, st).
Proof. intros H. specialize (H st). destruct (c st) as [r st']. simpl in H. subst. eauto. Qed.

(** ** Rendering an instance of OK or ERROR *)

Lemma py_str_OK (d : nat) (st : state) (o : oid) (ob : object) :
  heap st !! o = Some ob → ob_type ob = OK → ob_dict ob !! "__repr__" = None →
  py_str (S (S d)) (VRef o) st
  = (x <- getattr (VRef o) "value" ;;
     s <- py_str d x ;;
     ret ("Ok(" +:+ s +:+ ")")) st.
Proof.
  intros Ho Ht Hd. unfold py_str at 1. simpl str_with.
  rewrite (special_spec _ st o ob "__str__" fn_OK_str Ho) by by rewrite Ht.
  transitivity (method (call (S d)) o "__repr__" st); [done|].
  by rewrite (method_spec _ st o ob "__repr__" fn_OK_repr Ho Hd) by by rewrite Ht.
Qed.

Lemma py_str_ERROR (d : nat) (st : state) (o : oid) (ob : object) :
  heap st !! o = Some ob → ob_type ob = ERROR → ob_dict ob !! "__repr__" = None →
  py_str (S (S d)) (VRef o) st
  = (x <- getattr (VRef o) "value" ;;
     s <- py_str d x ;;
     ret ("Error(" +:+ s +:+ ")")) st.
Proof.
  intros Ho Ht Hd. unfold py_str at 1. simpl str_with.
  rewrite (special_spec _ st o ob "__str__" fn_ERROR_str Ho) by by rewrite Ht.
  transitivity (method (call (S d)) o "__repr__" st); [done|].
  by rewrite (method_spec _ st o ob "__repr__" fn_ERROR_repr Ho Hd) by by rewrite Ht.
Qed.

(** ** Rendering in a state that has everything another has *)

Lemma bind_Returned_inv {A B} (c : M A) (k : A → M B) st b st2 :
  bind c k st = (Returned b, st2) →
  ∃ a st1, c st = (Returned a, st1) ∧ k a st1 = (Returned b, st2).
Proof. unfold bind. destruct (c st) as [[a|e] st1]; [by eexists _, _ | done]. Qed.

Section carry.
Variables (st st' : state).
Hypothesis Hheap : ∀ o ob, heap st !! o = Some ob → heap st' !! o = Some ob.
Hypothesis Hlook : ∀ c name x,
  class_lookup st c name = Some x → class_lookup st' c name = Some x.
Hypothesis Htext : impl_text st' = impl_text st.

Lemma getattr_carries (v : pyval) (name : string) (x : pyval) (st1 : state) :
  getattr v name st = (Returned x, st1) → getattr v name st' = (Returned x, st').
Proof.
  unfold getattr. destruct v as [| | | |[]| |o]; try done.
  - destruct (class_lookup st c name) as [y|] eqn:Hy; [|done].
    intros [= <- _]. by rewrite (Hlook _ _ _ Hy).
  - destruct (heap st !! o) as [ob|] eqn:Ho; [|done].
    rewrite (Hheap _ _ Ho).
    destruct (ob_dict ob !! name) as [y|]; [by intros [= <- _]|].
    destruct (class_lookup st (ob_type ob) name) as [y|] eqn:Hy; [|done].
    intros [= <- _]. by rewrite (Hlook _ _ _ Hy).
Qed.

Variables (rec rec' : pyfun → oid → M string).
Hypothesis Hrec : ∀ f o s st1,
  rec f o st = (Returned s, st1) → rec' f o st' = (Returned s, st').

Lemma special_carries (self : oid) (name s : string) (st1 : state) :
  special rec self name st = (Returned s, st1) →
  special rec' self name st' = (Returned s, st').
Proof.
  unfold special at 1. intros (m & st2 & Hm & Hk)%bind_Returned_inv.
  unfold read in Hm. destruct (heap st !! self) as [ob|] eqn:Ho; [|done].
  simpl in Hm. injection Hm as <- <-.
  destruct (class_lookup st (ob_type ob) name) as [[| | | | |f|]|] eqn:Hl; try done.
  rewrite (special_spec rec' st' self ob name f); [by eapply Hrec| |].
  - by apply Hheap.
  - by apply Hlook.
Qed.

Lemma method_carries (self : oid) (name s : string) (st1 : state) :
  method rec self name st = (Returned s, st1) →
  method rec' self name st' = (Returned s, st').
Proof.
  unfold method at 1. intros (ob & st2 & Hm & Hk)%bind_Returned_inv.
  unfold read in Hm. destruct (heap st !! self) as [ob'|] eqn:Ho; [|done].
  injection Hm as <- <-.
  destruct (ob_dict ob' !! name) eqn:Hd; [done|].
  apply special_carries in Hk. unfold method.
  rewrite (bind_Returned _ _ st' ob' st'); [by rewrite Hd|].
  apply read_Some. by apply Hheap.
Qed.

Lemma str_with_carries (v : pyval) (s : string) (st1 : state) :
  str_with rec v st = (Returned s, st1) →
  str_with rec' v st' = (Returned s, st').
Proof.
  destruct v; simpl; try by intros [= <- _].
  - intros [= <- _]. by rewrite Htext.
  - intros [= <- _]. by rewrite Htext.
  - apply special_carries.
Qed.

Lemma repr_carries (self : oid) (opening closing s : string) (st1 : state) :
  (x <- getattr (VRef self) "value" ;;
   s <- str_with rec x ;;
   ret (opening +:+ s +:+ closing)) st = (Returned s, st1) →
  (x <- getattr (VRef self) "value" ;;
   s <- str_with rec' x ;;
   ret (opening +:+ s +:+ closing)) st' = (Returned s, st').
Proof.
  intros (x & st2 & Hx & Hk)%bind_Returned_inv.
  pose proof (readonly_getattr (VRef self) "value" st) as Hro.
  rewrite Hx in Hro. simpl in Hro. subst st2.
  apply bind_Returned_inv in Hk as (r & st3 & Hr & Hk). injection Hk as <- _.
  rewrite (bind_Returned _ _ _ _ _ (getattr_carries _ _ _ _ Hx)).
  by rewrite (bind_Returned _ _ _ _ _ (str_with_carries _ _ _ Hr)).
Qed.

Lemma call_body_carries (f : pyfun) (self : oid) (s : string) (st1 : state) :
  call_body rec f self st = (Returned s, st1) →
  call_body rec' f self st' = (Returned s, st').
Proof.
  destruct f; simpl; try done;
    try apply repr_carries; try apply method_carries; try apply special_carries;
    try by intros [= <- _].
  intros [= <- _]. by rewrite Htext.
Qed.
End carry.

Lemma call_carries (d d' : nat) (st st' : state) (f : pyfun) (o : oid)
    (s : string) (st1 : state) :
  (d ≤ d')%nat →
  (∀ o ob, heap st !! o = Some ob → heap st' !! o = Some ob) →
  (∀ c name x, class_lookup st c name = Some x → class_lookup st' c name = Some x) →
  impl_text st' = impl_text st →
  call d f o st = (Returned s, st1) → call d' f o st' = (Returned s, st').
Proof.
  intros Hd Hheap Hlook Htext. revert d' Hd f o s st1.
  induction d as [|d IH]; intros d' Hd f o s st1; [done|].
  destruct d' as [|d']; [lia|]. simpl.
  apply call_body_carries; [done..|].
  intros f0 o0 s0 st0. apply IH. lia.
Qed.

Lemma py_str_carries (d d' : nat) (st st' : state) (v : pyval) (s : string) (st1 : state) :
  (d ≤ d')%nat →
  (∀ o ob, heap st !! o = Some ob → heap st' !! o = Some ob) →
  (∀ c name x, class_lookup st c name = Some x → class_lookup st' c name = Some x) →
  impl_text st' = impl_text st →
  py_str d v st = (Returned s, st1) → py_str d' v st' = (Returned s, st').
Proof.
  intros Hd Hheap Hlook Htext. apply str_with_carries; [done..|].
  intros f o s0 st0. by apply call_carries.
Qed.



(** ** The outcome [Ok(v)] or [Error(v)] has just been built *)

(** What holds of the instance once the constructor has returned. *)
Lemma built_facts (st : state) (c : cid) (v : pyval) (t : pytype) :
  let o := VRef (length (heap st)) in
  let st' := set_heap (heap st ++ [built c v t]) st in
  type_of st' o = Some (ty_class c) ∧ getattr o "value" st' = (Returned v, st').
Proof.
  cbv zeta. split.
  - simpl. by rewrite list_lookup_middle.
  - eapply getattr_own; [apply built_lookup | apply built_value].
Qed.

(** C1. For every value [v] of the store, [Ok(v)] returns an outcome on
    which [unwrap] returns exactly [v], whatever the recursion depth left,
    and leaves the store as [Ok] left it. *)
Theorem unwrap_Ok (depth : nat) (st : state) (v : pyval) :
  live st v →
  ∃ o st', Ok v st = (Returned o, st') ∧ unwrap depth o st' = (Returned v, st').
Proof.
  intros [t Ht]. eexists _, _. split; [by apply Ok_spec|].
  destruct (built_facts st OK v t) as [Hty Hval].
  by rewrite (unwrap_not_ERROR depth _ _ _ Hty).
Qed.


(** C3. For every value [v] of the store, [is_ok(Ok(v))] is true and
    [is_error(Ok(v))] is false, and [is_error(Error(v))] is true and
    [is_ok(Error(v))] is false. *)
Theorem is_ok_is_error_built (st : state) (v : pyval) :
  live st v →
  (∃ o st', Ok v st = (Returned o, st') ∧
            is_ok o st' = (Returned true, st') ∧
            is_error o st' = (Returned false, st')) ∧
  (∃ o st', Error v st = (Returned o, st') ∧
            is_error o st' = (Returned true, st') ∧
            is_ok o st' = (Returned false, st')).
Proof.
  intros [t Ht]. split; eexists _, _.
  - split; [by apply Ok_spec|].
    destruct (built_facts st OK v t) as [Hty _].
    by rewrite (is_ok_spec _ _ _ Hty), (is_error_spec _ _ _ Hty).
  - split; [by apply Error_spec|].
    destruct (built_facts st ERROR v t) as [Hty _].
    by rewrite (is_ok_spec _ _ _ Hty), (is_error_spec _ _ _ Hty).
Qed.

(** C4. For every value [v] of the store and handlers [f], [g] (which
    may raise and may change the state), [match] on [Ok(v)] is the call
    [f(v)] and on [Error(v)] the call [g(v)]: same result, same final
    state. The other handler is not called: replacing it by any other
    changes nothing. *)
Theorem match_dispatch {R : Type} (st : state) (v : pyval) (f g : pyval → M R) :
  live st v →
  (∃ o st', Ok v st = (Returned o, st') ∧
            Result_match o f g st' = f v st' ∧
            ∀ g' : pyval → M R, Result_match o f g' st' = Result_match o f g st') ∧
  (∃ o st', Error v st = (Returned o, st') ∧
            Result_match o f g st' = g v st' ∧
            ∀ f' : pyval → M R, Result_match o f' g st' = Result_match o f g st').
Proof.
  intros [t Ht]. split; eexists _, _.
  - split; [by apply Ok_spec|].
    destruct (built_facts st OK v t) as [Hty Hval].
    assert (H : ∀ g0 : pyval → M R,
               Result_match (VRef (length (heap st))) f g0
                 (set_heap (heap st ++ [built OK v t]) st)
               = f v (set_heap (heap st ++ [built OK v t]) st)).
    { intros g0. rewrite (match_OK _ _ _ _ Hty). by rewrite (bind_Returned _ _ _ _ _ Hval). }
    split; [apply H|]. intros g'. by rewrite !H.
  - split; [by apply Error_spec|].
    destruct (built_facts st ERROR v t) as [Hty Hval].
    assert (H : ∀ f0 : pyval → M R,
               Result_match (VRef (length (heap st))) f0 g
                 (set_heap (heap st ++ [built ERROR v t]) st)
               = g v (set_heap (heap st ++ [built ERROR v t]) st)).
    { intros f0. rewrite (match_not_OK _ _ _ _ _ Hty) by done.
      by rewrite (bind_Returned _ _ _ _ _ Hval). }
    split; [apply H|]. intros f'. by rewrite !H.
Qed.

(** ** String rendering of an outcome *)

Lemma py_str_built_OK (d : nat) (st : state) (v : pyval) (t : pytype) (s : string) :
  let o := VRef (length (heap st)) in
  let st' := set_heap (heap st ++ [built OK v t]) st in
  py_str d v st' = (Returned s, st') →
  py_str (S (S d)) o st' = (Returned ("Ok(" +:+ s +:+ ")"), st').
Proof.
  cbv zeta. intros Hs. destruct (built_facts st OK v t) as [_ Hval].
  rewrite (py_str_OK d _ _ _ (built_lookup _ _ _ _ _) eq_refl (built_no_repr _ _ _)).
  rewrite (bind_Returned _ _ _ _ _ Hval).
  by rewrite (bind_Returned _ _ _ _ _ Hs).
Qed.

Lemma py_str_built_ERROR (d : nat) (st : state) (v : pyval) (t : pytype) (s : string) :
  let o := VRef (length (heap st)) in
  let st' := set_heap (heap st ++ [built ERROR v t]) st in
  py_str d v st' = (Returned s, st') →
  py_str (S (S d)) o st' = (Returned ("Error(" +:+ s +:+ ")"), st').
Proof.
  cbv zeta. intros Hs. destruct (built_facts st ERROR v t) as [_ Hval].
  rewrite (py_str_ERROR d _ _ _ (built_lookup _ _ _ _ _) eq_refl (built_no_repr _ _ _)).
  rewrite (bind_Returned _ _ _ _ _ Hval).
  by rewrite (bind_Returned _ _ _ _ _ Hs).
Qed.

Lemma contains_middle (a s b : string) : contains s (a +:+ s +:+ b).
Proof. by exists a, b. Qed.

(** C6, as the code has it. For every value [v] of the store, the
    string rendering of [Ok(v)] is ["Ok(" + str(v) + ")"] and that of
    [Error(v)] is ["Error(" + str(v) + ")"], as soon as [v] has a
    rendering two frames deeper; each contains the rendering of [v] as a
    substring. *)
Theorem render_built (st : state) (v : pyval) :
  live st v → rendered Ok "Ok(" st v ∧ rendered Error "Error(" st v.
Proof.
  intros [t Ht]. split; eexists _, _.
  - split; [by apply Ok_spec|]. intros d s Hs. split; [|apply contains_middle].
    by apply py_str_built_OK.
  - split; [by apply Error_spec|]. intros d s Hs. split; [|apply contains_middle].
    by apply py_str_built_ERROR.
Qed.

(** ** Classes made by [to_error] *)

Lemma class_name_ok_true (name : string) :
  class_name_ok name = true → has_surrogate name = false ∧ has_nul name = false.
Proof.
  unfold class_name_ok. intros [H1 H2]%andb_true_iff.
  by apply negb_true_iff in H1, H2.
Qed.

Lemma type_new_ErrorType (st : state) (name : string) (dict : gmap string pyval) :
  class_name_ok name = true →
  type_new name ErrorType dict st
  = (Returned (length (classes st)),
     add_class (PyClass name [length (classes st); ErrorType; object_] dict) st).
Proof.
  intros [H1 H2]%class_name_ok_true. unfold type_new.
  change (class_of st ErrorType) with (Some class_ErrorType).
  by rewrite H1, H2.
Qed.

(** A name [type] refuses: the call raises and the state is as it was. *)
Lemma type_new_refused (st : state) (name : string) (dict : gmap string pyval) :
  class_name_ok name = false →
  type_new name ErrorType dict st
  = (Raised (if has_surrogate name then UnicodeEncodeError else ValueError), st).
Proof.
  unfold class_name_ok, type_new.
  change (class_of st ErrorType) with (Some class_ErrorType).
  destruct (has_surrogate name); [done|]. by destruct (has_nul name).
Qed.

Lemma type_new_cases (st : state) (name : string) (dict : gmap string pyval) :
  type_new name ErrorType dict st
  = (Returned (length (classes st)),
     add_class (PyClass name [length (classes st); ErrorType; object_] dict) st)
  ∨ ∃ x, type_new name ErrorType dict st = (Raised x, st).
Proof.
  destruct (class_name_ok name) eqn:E.
  - left. by apply type_new_ErrorType.
  - right. eexists. by apply type_new_refused.
Qed.

Lemma to_error_spec (st : state) (name explanation : string) :
  class_name_ok name = true →
  to_error name explanation st
  = (Returned (VType (ty_class (length (classes st)))),
     add_class (kind_class name explanation (length (classes st))) st).
Proof.
  intros Hok. unfold to_error.
  by rewrite (bind_Returned _ _ _ _ _ (type_new_ErrorType st name _ Hok)).
Qed.

Lemma to_error_refused (st : state) (name explanation : string) :
  class_name_ok name = false →
  to_error name explanation st
  = (Raised (if has_surrogate name then UnicodeEncodeError else ValueError), st).
Proof.
  intros Hbad. unfold to_error.
  by rewrite (bind_Raised _ _ _ _ _ (type_new_refused st name _ Hbad)).
Qed.

Lemma classes_add_class (k : pyclass) (st : state) :
  classes (add_class k st) = (classes st ++ [k])%list.
Proof. unfold classes, add_class. cbn [user_classes]. apply app_assoc. Qed.

Lemma class_of_added (k : pyclass) (st : state) :
  class_of (add_class k st) (length (classes st)) = Some k.
Proof. unfold class_of. rewrite classes_add_class. by apply list_lookup_middle. Qed.

Lemma class_of_add_class (k k0 : pyclass) (st : state) (c : cid) :
  class_of st c = Some k0 → class_of (add_class k st) c = Some k0.
Proof. unfold class_of. rewrite classes_add_class. apply lookup_app_l_Some. Qed.

Lemma class_of_fresh (st : state) : class_of st (length (classes st)) = None.
Proof. unfold class_of. by apply lookup_ge_None. Qed.

Lemma kind_lookup (st : state) (name explanation : string) :
  let c := length (classes st) in
  let st' := add_class (kind_class name explanation c) st in
  class_lookup st' c "__repr__" = Some (VFun (fn_kind_repr name explanation)) ∧
  class_lookup st' c "__str__" = Some (VFun fn_kind_str) ∧
  class_lookup st' c "name" = Some (VStr name) ∧
  class_lookup st' c "__init__" = Some (VFun fn_object_init).
Proof.
  cbv zeta. unfold class_lookup. rewrite class_of_added. simpl.
  rewrite class_of_added. simpl. by simplify_map_eq.
Qed.

Lemma instantiate_plain (st : state) (c : cid) (k : pyclass) :
  class_of st c = Some k →
  class_lookup st c "__init__" = Some (VFun fn_object_init) →
  instantiate c [] st
  = (Returned (VRef (length (heap st))), set_heap (heap st ++ [Object c ∅]) st).
Proof.
  intros Hk Hinit. unfold instantiate.
  rewrite (bind_Returned _ _ st (Some (VFun fn_object_init)) st).
  - by rewrite (bind_Returned _ _ st (length (heap st)) (set_heap (heap st ++ [Object c ∅]) st)).
  - apply read_Some. by rewrite Hk; simpl; rewrite Hinit.
Qed.

(** An instance with an empty dictionary whose class renders through the
    two lambdas of [to_error]. *)
Lemma py_str_kind (d : nat) (st : state) (o : oid) (c : cid) (name explanation : string) :
  heap st !! o = Some (Object c ∅) →
  class_lookup st c "__str__" = Some (VFun fn_kind_str) →
  class_lookup st c "__repr__" = Some (VFun (fn_kind_repr name explanation)) →
  py_str (S (S d)) (VRef o) st = (Returned (name +:+ ", " +:+ explanation), st).
Proof.
  intros Ho Hstr Hrepr. unfold py_str. simpl str_with.
  rewrite (special_spec _ st o _ "__str__" fn_kind_str Ho) by done.
  transitivity (method (call (S d)) o "__repr__" st); [done|].
  by rewrite (method_spec _ st o _ "__repr__" (fn_kind_repr name explanation) Ho).
Qed.

(** C7, as the code has it. For every pair of strings whose name [type]
    takes as the name of a class (no surrogate, no NUL character),
    [to_error(name, explanation)] returns a type, not an instance: a new
    class called [name] that derives [ErrorType] and whose attribute [name]
    is the given name. An instance of it renders as
    [name + ", " + explanation], and its attribute [name] is the given name
    too. *)
Theorem to_error_kind (st : state) (name explanation : string) (d : nat) :
  class_name_ok name = true →
  ∃ c st1,
    to_error name explanation st = (Returned (VType (ty_class c)), st1) ∧
    type_of st1 (VType (ty_class c)) = Some ty_type ∧
    (∃ k, class_of st1 c = Some k ∧ cls_name k = name ∧ ErrorType ∈ cls_mro k) ∧
    getattr (VType (ty_class c)) "name" st1 = (Returned (VStr name), st1) ∧
    ∃ x st2,
      instantiate c [] st1 = (Returned x, st2) ∧
      type_of st2 x = Some (ty_class c) ∧
      py_str (S (S d)) x st2 = (Returned (name +:+ ", " +:+ explanation), st2) ∧
      getattr x "name" st2 = (Returned (VStr name), st2).
Proof.
  intros Hok.
  destruct (kind_lookup st name explanation) as (Hrepr & Hstr & Hname & Hinit).
  set (c := length (classes st)) in *.
  set (st1 := add_class (kind_class name explanation c) st) in *.
  exists c, st1. split; [by apply to_error_spec|]. split; [done|]. split.
  { eexists. split; [apply class_of_added|]. split; [done|]. simpl. set_solver. }
  split.
  { unfold getattr. by rewrite Hname. }
  set (st2 := set_heap (heap st1 ++ [Object c ∅]) st1).
  assert (Ho : heap st2 !! length (heap st1) = Some (Object c ∅))
    by by apply list_lookup_middle.
  exists (VRef (length (heap st1))), st2. split.
  { eapply instantiate_plain; [apply class_of_added | done]. }
  split; [by rewrite (type_of_ref _ _ _ Ho)|]. split.
  - apply (py_str_kind d st2 _ c name explanation Ho);
      unfold st2; by rewrite class_lookup_set_heap.
  - eapply getattr_class; [exact Ho | done |].
    unfold st2. by rewrite class_lookup_set_heap.
Qed.

(** ** Programs over the module *)

Lemma preserves_readonly {A} (P : state → Prop) (c : M A) : readonly c → preserves P c.
Proof. intros H st HP. by rewrite H. Qed.

Lemma preserves_bind {A B} (P : state → Prop) (c : M A) (k : A → M B) :
  preserves P c → (∀ a, preserves P (k a)) → preserves P (bind c k).
Proof.
  intros Hc Hk st HP. unfold bind. specialize (Hc st HP).
  destruct (c st) as [[a|e] st']; simpl in *; [by apply Hk | done].
Qed.

Section preservation.
Variable P : state → Prop.
Variable allowed : cid → Prop.
Hypothesis P_alloc : ∀ c, allowed c → preserves P (alloc c).
Hypothesis P_setattr : ∀ self name x, preserves P (setattr self name x).
Hypothesis P_type_new : ∀ name dict, preserves P (type_new name ErrorType dict).

Lemma preserves_init (self : oid) (value : pyval) :
  preserves P (OK_init self value) ∧ preserves P (ERROR_init self value).
Proof.
  split; (apply preserves_bind; [apply P_setattr|]; intros _;
          apply preserves_bind; [apply preserves_readonly, readonly_py_type|];
          intros t; apply P_setattr).
Qed.

Lemma preserves_instantiate (c : cid) (args : list pyval) :
  allowed c → preserves P (instantiate c args).
Proof.
  intros Hc. unfold instantiate.
  apply preserves_bind; [apply preserves_readonly, readonly_read|]. intros init.
  apply preserves_bind; [by apply P_alloc|]. intros self.
  apply preserves_bind; [|intros _; apply preserves_readonly, readonly_ret].
  repeat case_match;
    first [ apply preserves_init
          | apply preserves_readonly, readonly_ret
          | apply preserves_readonly, readonly_raise ].
Qed.

Lemma preserves_to_error (name explanation : string) :
  preserves P (to_error name explanation).
Proof.
  unfold to_error. apply preserves_bind; [apply P_type_new|].
  intros c. apply preserves_readonly, readonly_ret.
Qed.

Hypothesis allowed_OK : allowed OK.
Hypothesis allowed_ERROR : allowed ERROR.

Lemma preserves_run (a : api_call) :
  (∀ c args, a = call_new c args → allowed c) → preserves P (run a).
Proof.
  intros Ha. destruct a; simpl.
  - by apply preserves_instantiate.
  - by apply preserves_instantiate.
  - apply preserves_readonly, readonly_unwrap.
  - apply preserves_readonly, readonly_bind; [apply readonly_is_error | auto with readonly].
  - apply preserves_readonly, readonly_bind; [apply readonly_is_ok | auto with readonly].
  - apply preserves_readonly, readonly_match; auto with readonly.
  - apply preserves_readonly, readonly_bind; [apply readonly_py_str | auto with readonly].
  - apply preserves_to_error.
  - apply preserves_instantiate. by eapply Ha.
Qed.
End preservation.

(** *** Classes stay *)

Lemma class_stays (c : cid) (k : pyclass) (a : api_call) :
  preserves (λ st, class_of st c = Some k) (run a).
Proof.
  apply (preserves_run _ (λ _, True)); try done.
  - by intros c0 _ st H.
  - intros self name x st H. unfold setattr. by destruct (heap st !! self).
  - intros name dict st H.
    destruct (type_new_cases st name dict) as [->|[x ->]]; [|done].
    by apply class_of_add_class.
Qed.

Lemma class_stays_calls (c : cid) (k : pyclass) (calls : list api_call) (st : state) :
  class_of st c = Some k → class_of (run_calls calls st) c = Some k.
Proof.
  revert st. induction calls as [|a calls IH]; intros st H; [done|].
  apply IH. by apply class_stays.
Qed.

(** C8, as the code has it. [to_error] fails on the names [type]
    refuses, and on no other: with a surrogate in the name it raises
    [UnicodeEncodeError], with a NUL character [ValueError], and no class is
    made. For every other pair of strings it returns a class, and that
    class is new: it is none of the classes that exist when it is called,
    and whatever the client does next, any later call of [to_error] that
    returns, returns another class, with the same two strings or with
    others. *)
Theorem to_error_always_new (st : state) (name explanation : string) :
  (class_name_ok name = false →
   to_error name explanation st
   = (Raised (if has_surrogate name then UnicodeEncodeError else ValueError), st)) ∧
  (class_name_ok name = true →
   ∃ c st1,
     to_error name explanation st = (Returned (VType (ty_class c)), st1) ∧
     class_of st c = None ∧
     ∀ (calls : list api_call) (name' explanation' : string),
       class_name_ok name' = true →
       ∃ c' st2,
         to_error name' explanation' (run_calls calls st1)
         = (Returned (VType (ty_class c')), st2) ∧
         c' ≠ c).
Proof.
  split; [apply to_error_refused|]. intros Hok.
  eexists _, _. split; [by apply to_error_spec|]. split; [apply class_of_fresh|].
  intros calls name' explanation' Hok'. eexists _, _.
  split; [by apply to_error_spec|].
  intros Heq.
  pose proof (class_of_fresh
    (run_calls calls (add_class (kind_class name explanation (length (classes st))) st)))
    as Hfresh.
  rewrite Heq in Hfresh.
  by rewrite (class_stays_calls _ _ calls _ (class_of_added _ st)) in Hfresh.
Qed.

(** *** The type of an object stays *)

Lemma type_stays (v : pyval) (t : pytype) (a : api_call) :
  preserves (λ st, type_of st v = Some t) (run a).
Proof.
  apply (preserves_run _ (λ _, True)); try done.
  - intros c _ st H. by apply type_of_grow.
  - intros self name x st H. unfold setattr.
    destruct (heap st !! self) as [ob|] eqn:Hob; [|done].
    destruct v as [| | | | | |o]; try done. simpl in *.
    destruct (decide (self = o)) as [->|Hne].
    + rewrite list_lookup_insert_eq by by eapply lookup_lt_Some.
      by rewrite Hob in H.
    + by rewrite list_lookup_insert_ne.
  - intros name dict st H.
    by destruct (type_new_cases st name dict) as [->|[x ->]].
Qed.

Lemma type_stays_calls (v : pyval) (t : pytype) (calls : list api_call) (st : state) :
  type_of st v = Some t → type_of (run_calls calls st) v = Some t.
Proof.
  revert st. induction calls as [|a calls IH]; intros st H; [done|].
  apply IH. by apply type_stays.
Qed.

(** *** Only [OK] and [ERROR] have instances among the result classes *)

Lemma inv_init (text : pyval → string) : inv (init_state text).
Proof.
  split.
  - intros c k Hc Hin. unfold class_of, classes in Hc. simpl in Hc.
    do 5 (destruct c as [|c];
          [simpl in Hc; injection Hc as <-; revert Hin; simpl;
           rewrite ?elem_of_cons, ?elem_of_nil;
           unfold Result, OK, ERROR, ErrorType, object_; lia|]).
    done.
  - by intros o ob H.
Qed.

Lemma inv_run (a : api_call) : permitted a → preserves inv (run a).
Proof.
  intros Ha. apply (preserves_run _ (λ c, c ≠ Result)); try done.
  - intros c Hc st [Hcl Hh]. split; [done|].
    intros o ob [[_ H]|[_ <-]]%lookup_snoc_Some; [by eapply Hh | done].
  - intros self name x st [Hcl Hh]. unfold setattr.
    destruct (heap st !! self) as [ob0|] eqn:Hob; [|done]. split; [done|].
    intros o ob [(-> & <- & _)|[_ H]]%list_lookup_insert_Some; simpl; by eapply Hh.
  - intros name dict st [Hcl Hh].
    destruct (type_new_cases st name dict) as [->|[x ->]]; [|done]. cbn [snd].
    split; [|done]. intros c k Hc Hin. unfold class_of in Hc. rewrite classes_add_class in Hc.
    apply lookup_snoc_Some in Hc as [[_ Hc]|[-> <-]]; [by eapply Hcl|].
    revert Hin. simpl. unfold classes. rewrite ?length_app. simpl.
    rewrite ?elem_of_cons, ?elem_of_nil.
    unfold Result, OK, ERROR, ErrorType, object_. lia.
  - by intros c args ->.
Qed.

Lemma reachable_inv (st : state) : reachable st → inv st.
Proof.
  induction 1 as [text|st a _ IH Ha]; [apply inv_init | by apply inv_run].
Qed.

(** C5. In every state the client can reach, every instance of [Result]
    is an instance of exactly [OK] or of exactly [ERROR]: [is_ok] and
    [is_error] give opposite answers on it. And the type of a value is the
    same after any further calls. *)
Theorem outcome_one_variant_forever (st : state) :
  reachable st →
  (∀ v, isinstance st v Result →
     (is_ok v st = (Returned true, st) ∧ is_error v st = (Returned false, st)) ∨
     (is_ok v st = (Returned false, st) ∧ is_error v st = (Returned true, st))) ∧
  (∀ v t calls, type_of st v = Some t → type_of (run_calls calls st) v = Some t).
Proof.
  intros [Hcl Hh]%reachable_inv. split; [|intros v t calls; apply type_stays_calls].
  intros v (t & k & Hty & Hk & Hin).
  rewrite (is_ok_spec _ _ _ Hty), (is_error_spec _ _ _ Hty).
  destruct (Hcl t k Hk Hin) as [ -> | [ -> | -> ] ]; [|by left|by right].
  destruct v as [| | | | | |o]; try done. simpl in Hty.
  destruct (heap st !! o) as [ob|] eqn:Hob; [|done]. simpl in Hty.
  injection Hty as Hty. by destruct (Hh o ob Hob).
Qed.

(** ** Instances that are neither [OK] nor [ERROR] *)

Lemma bare_Result (st : state) :
  let o := VRef (length (heap st)) in
  let st' := set_heap (heap st ++ [Object Result ∅]) st in
  instantiate Result [] st = (Returned o, st') ∧
  type_of st' o = Some (ty_class Result) ∧
  getattr o "value" st' = (Returned (VStr ""), st').
Proof.
  cbv zeta.
  assert (Ho : heap (set_heap (heap st ++ [Object Result ∅]) st) !! length (heap st)
               = Some (Object Result ∅)) by by apply list_lookup_middle.
  split; [|split].
  - by eapply instantiate_plain; [apply class_of_module|].
  - by rewrite (type_of_ref _ _ _ Ho).
  - by eapply getattr_class.
Qed.

(** C9. [unwrap] raises on the exact type [ERROR] only: on a value of any
    other type it is the attribute lookup [value.value]. On a bare
    instance of [Result] it returns the empty string, the default the
    class holds. *)
Theorem unwrap_neither_variant (depth : nat) (st : state) :
  (∀ x t, type_of st x = Some t → t ≠ ty_class ERROR →
          unwrap depth x st = getattr x "value" st) ∧
  ∃ o st', instantiate Result [] st = (Returned o, st') ∧
           type_of st' o = Some (ty_class Result) ∧
           unwrap depth o st' = (Returned (VStr ""), st').
Proof.
  split; [intros x t; apply unwrap_not_ERROR|].
  destruct (bare_Result st) as (Hnew & Hty & Hval). eexists _, _.
  split; [exact Hnew|]. split; [exact Hty|].
  by rewrite (unwrap_not_ERROR depth _ _ _ Hty).
Qed.

Lemma mro_find_elem (st : state) (mro : list cid) (name : string) (c : cid) (v : pyval) :
  c ∈ mro → class_of st c ≫= (λ k, cls_dict k !! name) = Some v →
  is_Some (mro_find st mro name).
Proof.
  intros Hin Hc. induction Hin as [c mro|c c' mro _ IH]; simpl.
  - by rewrite Hc.
  - destruct (class_of st c' ≫= _); [by eexists | by apply IH].
Qed.

(** Every instance of [Result] has the attribute [value]. *)
Lemma Result_instance_value (st : state) (self : pyval) :
  isinstance st self Result → ∃ x, getattr self "value" st = (Returned x, st).
Proof.
  intros (t & k & Hty & Hk & Hin).
  destruct self as [| | | | | |o]; try done. simpl in Hty.
  destruct (heap st !! o) as [ob|] eqn:Hob; [|done].
  injection Hty as <-. unfold getattr. rewrite Hob.
  destruct (ob_dict ob !! "value"); [by eexists|].
  unfold class_lookup. rewrite Hk. simpl.
  destruct (mro_find_elem st (cls_mro k) "value" Result (VStr "") Hin) as [x ->];
    [done | by eexists].
Qed.

(** C10. [match] and [is_ok] compare the exact type with [OK]: on a value
    of any other type, [match] calls the error handler on the attribute
    [value], and [is_ok] is false. If the value is an instance of [Result]
    (a bare one, an [ERROR], an instance of a subclass of [OK]), the
    attribute exists and the error handler is called on it. *)
Theorem dispatch_by_exact_type {R : Type} (st : state) (self : pyval) (t : pytype)
    (ok error : pyval → M R) :
  type_of st self = Some t → t ≠ ty_class OK →
  Result_match self ok error st = (x <- getattr self "value" ;; error x) st ∧
  is_ok self st = (Returned false, st) ∧
  (isinstance st self Result →
   ∃ x, getattr self "value" st = (Returned x, st) ∧
        Result_match self ok error st = error x st).
Proof.
  intros Hty Hne.
  pose proof (match_not_OK st self t ok error Hty Hne) as Hm.
  split; [done|]. split.
  - rewrite (is_ok_spec _ _ _ Hty). by rewrite bool_decide_false.
  - intros [x Hx]%Result_instance_value. exists x. split; [done|].
    by rewrite Hm, (bind_Returned _ _ _ _ _ Hx).
Qed.

(** ** The statements at concrete inputs *)

Lemma reachable_calls (calls : list api_call) (st : state) :
  reachable st → Forall permitted calls → reachable (run_calls calls st).
Proof.
  intros Hst Hcalls. revert st Hst.
  induction Hcalls as [|a calls Ha _ IH]; intros st Hst; [done|].
  apply IH. by apply reachable_step.
Qed.

Lemma reachable_divide_state : reachable divide_state.
Proof.
  apply reachable_calls; [apply reachable_init|].
  repeat constructor. simpl. discriminate.
Qed.

(** The scenario of the documentation: divide(1, 0) is an error, [match]
    gives it to the error handler, and unwrapping it raises with the
    rendering of the outcome in the message; divide(1, 1) unwraps. *)
Example divide_by_zero :
  (b <- is_error (VRef 1) ;;
   m <- Result_match (VRef 1) ret (λ _, ret (VStr "Error")) ;;
   s <- py_str 4 (VRef 1) ;;
   ret (b, m, s)) divide_state
  = (Returned (true, VStr "Error", "Error(DivideByZeroError, Cannot divide by zero)"),
     divide_state)
  ∧ unwrap 4 (VRef 1) divide_state
    = (Raised (Exception
         "Unwrapping error : Error(DivideByZeroError, Cannot divide by zero)"),
       divide_state)
  ∧ unwrap 4 (VRef 2) divide_state = (Returned (VInt 1), divide_state).
Proof. by vm_compute. Qed.

(** An instance of a subclass of [OK] holds its value, renders as an
    [Ok], and is not ok. *)
Example subclass_of_OK :
  (b <- is_ok (VRef 0) ;;
   m <- Result_match (VRef 0) ret (λ _, ret (VStr "Error")) ;;
   u <- unwrap 3 (VRef 0) ;;
   s <- py_str 3 (VRef 0) ;;
   ret (b, m, u, s)) special_state
  = (Returned (false, VStr "Error", VInt 1, "Ok(1)"), special_state).
Proof. by vm_compute. Qed.

(** The recursion limit: rendering this outcome takes four frames; with
    three left, rendering raises and [unwrap] of the error raises that
    instead of its own exception. *)
Example unwrap_out_of_depth :
  unwrap 3 (VRef 1) divide_state = (Raised RecursionError, divide_state).
Proof. by vm_compute. Qed.

Lemma unwrap_Ok_witness :
  live start (VStr "a") ∧
  ∃ o st', Ok (VStr "a") start = (Returned o, st') ∧
           unwrap 3 o st' = (Returned (VStr "a"), st').
Proof.
  assert (H : live start (VStr "a")) by (exists ty_str; reflexivity).
  exact (conj H (unwrap_Ok 3 start (VStr "a") H)).
Defined.


Lemma is_ok_is_error_built_witness :
  live start (VInt 5) ∧
  (∃ o st', Ok (VInt 5) start = (Returned o, st') ∧
            is_ok o st' = (Returned true, st') ∧
            is_error o st' = (Returned false, st')) ∧
  (∃ o st', Error (VInt 5) start = (Returned o, st') ∧
            is_error o st' = (Returned true, st') ∧
            is_ok o st' = (Returned false, st')).
Proof.
  assert (H : live start (VInt 5)) by (exists ty_int; reflexivity).
  exact (conj H (is_ok_is_error_built start (VInt 5) H)).
Defined.

Lemma match_dispatch_witness :
  let f : pyval → M pyval := ret in
  let g : pyval → M pyval := λ _, ret (VStr "Error") in
  live start (VInt 5) ∧
  (∃ o st', Ok (VInt 5) start = (Returned o, st') ∧
            Result_match o f g st' = f (VInt 5) st' ∧
            ∀ g' : pyval → M pyval, Result_match o f g' st' = Result_match o f g st') ∧
  (∃ o st', Error (VInt 5) start = (Returned o, st') ∧
            Result_match o f g st' = g (VInt 5) st' ∧
            ∀ f' : pyval → M pyval, Result_match o f' g st' = Result_match o f g st').
Proof.
  assert (H : live start (VInt 5)) by (exists ty_int; reflexivity).
  exact (conj H (match_dispatch start (VInt 5) ret (λ _, ret (VStr "Error")) H)).
Defined.

Lemma outcome_one_variant_forever_witness :
  reachable divide_state ∧
  (∀ v, isinstance divide_state v Result →
     (is_ok v divide_state = (Returned true, divide_state) ∧
      is_error v divide_state = (Returned false, divide_state)) ∨
     (is_ok v divide_state = (Returned false, divide_state) ∧
      is_error v divide_state = (Returned true, divide_state))) ∧
  (∀ v t calls, type_of divide_state v = Some t →
                type_of (run_calls calls divide_state) v = Some t).
Proof.
  exact (conj reachable_divide_state
              (outcome_one_variant_forever divide_state reachable_divide_state)).
Defined.

Lemma render_built_witness :
  live divide_state (VRef 0) ∧
  rendered Ok "Ok(" divide_state (VRef 0) ∧ rendered Error "Error(" divide_state (VRef 0).
Proof.
  assert (H : live divide_state (VRef 0)) by (exists (ty_class 5); reflexivity).
  exact (conj H (render_built divide_state (VRef 0) H)).
Defined.

(** C6, as the specification words it, fails on the code: the rendering
    of [Ok(5)] is ["Ok(5)"], not ["Success(5)"], and that of [Error(5)] is
    ["Error(5)"], not ["Failure(5)"]. *)
Lemma render_not_Success_Failure :
  live start (VInt 5) ∧
  ¬ rendered Ok "Success(" start (VInt 5) ∧
  ¬ rendered Error "Failure(" start (VInt 5).
Proof.
  split; [exists ty_int; reflexivity|].
  split; intros (o & st' & Hc & Hr).
  - rewrite (Ok_spec start (VInt 5) ty_int eq_refl) in Hc. injection Hc as <- <-.
    destruct (Hr 0 "5" eq_refl) as [Hs _]. vm_compute in Hs. discriminate Hs.
  - rewrite (Error_spec start (VInt 5) ty_int eq_refl) in Hc. injection Hc as <- <-.
    destruct (Hr 0 "5" eq_refl) as [Hs _]. vm_compute in Hs. discriminate Hs.
Qed.

Lemma unwrap_neither_variant_witness :
  type_of special_state (VRef 0) = Some (ty_class 5) ∧
  ty_class 5 ≠ ty_class ERROR ∧
  unwrap 3 (VRef 0) special_state = getattr (VRef 0) "value" special_state.
Proof.
  assert (H1 : type_of special_state (VRef 0) = Some (ty_class 5)) by reflexivity.
  assert (H2 : ty_class 5 ≠ ty_class ERROR) by discriminate.
  exact (conj H1 (conj H2
    (proj1 (unwrap_neither_variant 3 special_state) (VRef 0) (ty_class 5) H1 H2))).
Defined.

Lemma dispatch_by_exact_type_witness :
  let ok : pyval → M pyval := ret in
  let error : pyval → M pyval := λ _, ret (VStr "Error") in
  type_of special_state (VRef 0) = Some (ty_class 5) ∧
  ty_class 5 ≠ ty_class OK ∧
  Result_match (VRef 0) ok error special_state
  = (x <- getattr (VRef 0) "value" ;; error x) special_state ∧
  is_ok (VRef 0) special_state = (Returned false, special_state) ∧
  (isinstance special_state (VRef 0) Result →
   ∃ x, getattr (VRef 0) "value" special_state = (Returned x, special_state) ∧
        Result_match (VRef 0) ok error special_state = error x special_state).
Proof.
  assert (H1 : type_of special_state (VRef 0) = Some (ty_class 5)) by reflexivity.
  assert (H2 : ty_class 5 ≠ ty_class OK) by discriminate.
  exact (conj H1 (conj H2
    (dispatch_by_exact_type special_state (VRef 0) (ty_class 5)
       ret (λ _, ret (VStr "Error")) H1 H2))).
Defined.


(** * More of the module *)

(** ** The store only grows *)

Lemma extends_refl (st : state) : extends st st.
Proof. by split; [|split]. Qed.

Lemma extends_trans (st1 st2 st3 : state) :
  extends st1 st2 → extends st2 st3 → extends st1 st3.
Proof.
  intros (H1 & H2 & H3) (H4 & H5 & H6).
  split; [by etrans|]. split; [by etrans|]. by rewrite H6.
Qed.

Lemma extends_set_heap (st : state) (more : list object) :
  extends st (set_heap (heap st ++ more) st).
Proof. split; [by apply prefix_app_r|]. by split. Qed.

Lemma extends_add_class (st : state) (k : pyclass) : extends st (add_class k st).
Proof. split; [done|]. split; [by apply prefix_app_r | done]. Qed.

Lemma extends_readonly {A} (c : M A) (st : state) : readonly c → extends st (c st).2.
Proof. intros ->. apply extends_refl. Qed.

(** What [__init__] of [OK] and [ERROR] does to the instance just
    allocated, also when [type(value)] fails half way. *)
Lemma init_state_after (c : cid) (st : state) (value : pyval) :
  ∃ d, ((setattr (length (heap st)) "value" value ;;;
         t <- py_type value ;;
         setattr (length (heap st)) "type" (VType t))
          (set_heap (heap st ++ [Object c ∅]) st)).2
       = set_heap (heap st ++ [Object c d]) st.
Proof.
  rewrite (bind_Returned _ _ _ _ _ (setattr_last st (heap st) c ∅ "value" value)).
  unfold bind at 1, py_type, read.
  destruct (type_of _ value) as [t|]; [|by eexists].
  rewrite setattr_last. by eexists.
Qed.

Lemma bind_then_ret {A B} (c : M A) (b : B) (st : state) :
  (bind c (λ _, ret b) st).2 = (c st).2.
Proof. unfold bind. by destruct (c st) as [[a|e] st']. Qed.

Lemma instantiate_state_after (c : cid) (args : list pyval) (st : state) :
  (instantiate c args st).2 = st ∨
  ∃ d, (instantiate c args st).2 = set_heap (heap st ++ [Object c d]) st.
Proof.
  unfold instantiate.
  destruct (class_of st c ≫= λ _, Some (class_lookup st c "__init__"))
    as [init|] eqn:E.
  - right. rewrite (bind_Returned _ _ st init st) by by apply read_Some.
    rewrite (bind_Returned _ _ st (length (heap st))
               (set_heap (heap st ++ [Object c ∅]) st)) by done.
    rewrite bind_then_ret.
    repeat case_match;
      first [ apply init_state_after | eexists; reflexivity ].
  - left. rewrite (bind_Raised _ _ st SystemError st); [done|].
    unfold read. by rewrite E.
Qed.

Lemma extends_instantiate (c : cid) (args : list pyval) (st : state) :
  extends st (instantiate c args st).2.
Proof.
  destruct (instantiate_state_after c args st) as [->|[d ->]];
    [apply extends_refl | apply extends_set_heap].
Qed.

Lemma extends_run (a : api_call) (st : state) : extends st (run a st).2.
Proof.
  destruct a; cbn [run].
  - apply extends_instantiate.
  - apply extends_instantiate.
  - apply extends_readonly, readonly_unwrap.
  - apply extends_readonly, readonly_bind; [apply readonly_is_error | auto with readonly].
  - apply extends_readonly, readonly_bind; [apply readonly_is_ok | auto with readonly].
  - apply extends_readonly, readonly_match; auto with readonly.
  - apply extends_readonly, readonly_bind; [apply readonly_py_str | auto with readonly].
  - destruct (class_name_ok name) eqn:Hok.
    + rewrite to_error_spec by done. apply extends_add_class.
    + rewrite to_error_refused by done. apply extends_refl.
  - apply extends_instantiate.
Qed.

Lemma extends_run_calls (calls : list api_call) (st : state) :
  extends st (run_calls calls st).
Proof.
  revert st. induction calls as [|a calls IH]; intros st; [apply extends_refl|].
  eapply extends_trans; [apply extends_run | apply IH].
Qed.

(** ** Lookups in a store that has grown *)

Lemma extends_heap_lookup (st st' : state) (o : oid) (ob : object) :
  extends st st' → heap st !! o = Some ob → heap st' !! o = Some ob.
Proof. intros (H & _ & _) Ho. by eapply prefix_lookup_Some. Qed.

Lemma extends_class_of (st st' : state) (c : cid) (k : pyclass) :
  extends st st' → class_of st c = Some k → class_of st' c = Some k.
Proof.
  intros (_ & H & _). unfold class_of, classes.
  intros Hc. eapply prefix_lookup_Some; [exact Hc | by apply prefix_app].
Qed.

Lemma extends_type_of (st st' : state) (v : pyval) (t : pytype) :
  extends st st' → type_of st v = Some t → type_of st' v = Some t.
Proof.
  intros Hext. destruct v as [| | | | | |o]; try done. simpl.
  destruct (heap st !! o) as [ob|] eqn:Ho; [|done].
  by rewrite (extends_heap_lookup _ _ _ _ Hext Ho).
Qed.

Lemma extends_mro_find (st st' : state) (mro : list cid) (name : string) :
  extends st st' → Forall (λ b, is_Some (class_of st b)) mro →
  mro_find st' mro name = mro_find st mro name.
Proof.
  intros Hext Hall. induction Hall as [|c mro [k Hk] _ IH]; [done|].
  simpl. by rewrite Hk, (extends_class_of _ _ _ _ Hext Hk), IH.
Qed.

Lemma extends_class_lookup (st st' : state) (c : cid) (name : string) (x : pyval) :
  extends st st' → mro_closed st →
  class_lookup st c name = Some x → class_lookup st' c name = Some x.
Proof.
  intros Hext Hcl. unfold class_lookup.
  destruct (class_of st c) as [k|] eqn:Hk; [|done].
  rewrite (extends_class_of _ _ _ _ Hext Hk). simpl.
  by rewrite (extends_mro_find _ _ _ _ Hext (Hcl c k Hk)).
Qed.


(** More depth, a larger store: what rendered renders the same. *)
Lemma py_str_transfer (d d' : nat) (st st' : state) (v : pyval) (s : string) (st1 : state) :
  (d ≤ d')%nat → extends st st' → mro_closed st →
  py_str d v st = (Returned s, st1) → py_str d' v st' = (Returned s, st').
Proof.
  intros Hd Hext Hcl. apply py_str_carries; [done| | |by destruct Hext as (_ & _ & ->)].
  - intros o ob. by apply extends_heap_lookup.
  - intros c name x. by apply extends_class_lookup.
Qed.

(** ** Class tables the module builds *)

Lemma mro_closed_init (text : pyval → string) : mro_closed (init_state text).
Proof.
  intros c k Hc. unfold class_of, classes in Hc. simpl in Hc.
  do 5 (destruct c as [|c];
        [injection Hc as <-; simpl; repeat constructor; by eexists|]).
  done.
Qed.

Lemma mro_closed_run (a : api_call) : preserves mro_closed (run a).
Proof.
  apply (preserves_run _ (λ _, True)); try done.
  - by intros c _ st H.
  - intros self name x st H. unfold setattr. by destruct (heap st !! self).
  - intros name dict st H.
    destruct (type_new_cases st name dict) as [->|[x ->]]; [|done]. cbn [snd].
    set (k := PyClass name _ dict). intros c k' Hc.
    unfold class_of in Hc. rewrite classes_add_class in Hc.
    apply lookup_snoc_Some in Hc as [[_ Hc]|[-> <-]].
    + eapply Forall_impl; [exact (H c k' Hc)|].
      intros b [kb Hb]. exists kb. by apply class_of_add_class.
    + simpl. repeat constructor; [by rewrite class_of_added|by eexists..].
Qed.

Lemma mro_closed_reachable (st : state) : reachable st → mro_closed st.
Proof.
  induction 1 as [text|st a _ IH Ha]; [apply mro_closed_init | by apply mro_closed_run].
Qed.

(** ** Outcomes somewhere in the store *)

Lemma py_str_Result (d : nat) (st : state) (o : oid) (ob : object) :
  heap st !! o = Some ob → ob_type ob = Result → ob_dict ob !! "__repr__" = None →
  py_str (S (S d)) (VRef o) st
  = (x <- getattr (VRef o) "value" ;;
     s <- py_str d x ;;
     ret ("Result<" +:+ s +:+ ">")) st.
Proof.
  intros Ho Ht Hd. unfold py_str at 1. simpl str_with.
  rewrite (special_spec _ st o ob "__str__" fn_Result_str Ho) by by rewrite Ht.
  transitivity (method (call (S d)) o "__repr__" st); [done|].
  by rewrite (method_spec _ st o ob "__repr__" fn_Result_repr Ho Hd) by by rewrite Ht.
Qed.

Lemma py_str_ErrorType (d : nat) (st : state) (o : oid) (ob : object) :
  heap st !! o = Some ob → ob_type ob = ErrorType →
  py_str (S d) (VRef o) st = (Returned "", st).
Proof.
  intros Ho Ht. unfold py_str. simpl str_with.
  by rewrite (special_spec _ st o ob "__str__" fn_ErrorType_str Ho) by by rewrite Ht.
Qed.

(** An instance built by [OK(v)] or [ERROR(v)], wherever it is. *)
Lemma built_anywhere (st : state) (o : oid) (c : cid) (v : pyval) (t : pytype) :
  heap st !! o = Some (built c v t) →
  type_of st (VRef o) = Some (ty_class c) ∧
  getattr (VRef o) "value" st = (Returned v, st) ∧
  getattr (VRef o) "type" st = (Returned (VType t), st).
Proof.
  intros Ho. split; [by rewrite (type_of_ref _ _ _ Ho)|].
  split; eapply getattr_own; try exact Ho; simpl; by simplify_map_eq.
Qed.

Lemma py_str_OK_anywhere (d : nat) (st : state) (o : oid) (v : pyval) (t : pytype)
    (s : string) :
  heap st !! o = Some (built OK v t) →
  py_str d v st = (Returned s, st) →
  py_str (S (S d)) (VRef o) st = (Returned ("Ok(" +:+ s +:+ ")"), st).
Proof.
  intros Ho Hs. destruct (built_anywhere _ _ _ _ _ Ho) as (_ & Hval & _).
  rewrite (py_str_OK d _ _ _ Ho eq_refl (built_no_repr _ _ _)).
  rewrite (bind_Returned _ _ _ _ _ Hval).
  by rewrite (bind_Returned _ _ _ _ _ Hs).
Qed.

Lemma py_str_ERROR_anywhere (d : nat) (st : state) (o : oid) (v : pyval) (t : pytype)
    (s : string) :
  heap st !! o = Some (built ERROR v t) →
  py_str d v st = (Returned s, st) →
  py_str (S (S d)) (VRef o) st = (Returned ("Error(" +:+ s +:+ ")"), st).
Proof.
  intros Ho Hs. destruct (built_anywhere _ _ _ _ _ Ho) as (_ & Hval & _).
  rewrite (py_str_ERROR d _ _ _ Ho eq_refl (built_no_repr _ _ _)).
  rewrite (bind_Returned _ _ _ _ _ Hval).
  by rewrite (bind_Returned _ _ _ _ _ Hs).
Qed.

(** ** Properties of the store *)

(** X1. No call changes an object or a class that exists: after any
    sequence of calls every object has the type and the attributes it
    had, and every class its name, bases and dictionary. *)
Theorem store_never_changes (st : state) (calls : list api_call) :
  (∀ o ob, heap st !! o = Some ob → heap (run_calls calls st) !! o = Some ob) ∧
  (∀ c k, class_of st c = Some k → class_of (run_calls calls st) c = Some k).
Proof.
  pose proof (extends_run_calls calls st) as Hext. split.
  - intros o ob. by apply extends_heap_lookup.
  - intros c k. by apply extends_class_of.
Qed.

(** X2. An outcome keeps its value and its variant: whatever is called
    after [Ok(v)], [unwrap] still returns [v], [is_ok] is still true and
    [match] still calls the first handler on [v]; whatever is called
    after [Error(v)], [is_error] is still true, [match] still calls the
    second handler on [v], and [unwrap] still raises. *)
Theorem outcome_keeps_value {R : Type} (st : state) (v : pyval)
    (calls : list api_call) (d : nat) (f g : pyval → M R) :
  live st v →
  (∃ o st', Ok v st = (Returned o, st') ∧
     let st2 := run_calls calls st' in
     unwrap d o st2 = (Returned v, st2) ∧
     is_ok o st2 = (Returned true, st2) ∧
     Result_match o f g st2 = f v st2) ∧
  (∃ o st', Error v st = (Returned o, st') ∧
     let st2 := run_calls calls st' in
     (∃ x, unwrap d o st2 = (Raised x, st2)) ∧
     is_error o st2 = (Returned true, st2) ∧
     Result_match o f g st2 = g v st2).
Proof.
  intros [t Ht]. split; eexists _, _.
  - split; [by apply Ok_spec|]. cbv zeta.
    set (st2 := run_calls calls _).
    assert (Ho : heap st2 !! length (heap st) = Some (built OK v t)).
    { eapply extends_heap_lookup; [apply extends_run_calls | apply built_lookup]. }
    destruct (built_anywhere _ _ _ _ _ Ho) as (Hty & Hval & _).
    split; [by rewrite (unwrap_not_ERROR d _ _ _ Hty)|].
    split; [by rewrite (is_ok_spec _ _ _ Hty)|].
    by rewrite (match_OK _ _ _ _ Hty), (bind_Returned _ _ _ _ _ Hval).
  - split; [by apply Error_spec|]. cbv zeta.
    set (st2 := run_calls calls _).
    assert (Ho : heap st2 !! length (heap st) = Some (built ERROR v t)).
    { eapply extends_heap_lookup; [apply extends_run_calls | apply built_lookup]. }
    destruct (built_anywhere _ _ _ _ _ Ho) as (Hty & Hval & _).
    split; [|split].
    + rewrite (unwrap_ERROR d _ _ Hty).
      destruct (readonly_result (py_str d (VRef (length (heap st)))) st2
                  (readonly_py_str _ _)) as [[s|x] Hr].
      * rewrite (bind_Returned _ _ _ _ _ Hr). by eexists.
      * rewrite (bind_Raised _ _ _ _ _ Hr). by eexists.
    + by rewrite (is_error_spec _ _ _ Hty).
    + rewrite (match_not_OK _ _ _ _ _ Hty) by done.
      by rewrite (bind_Returned _ _ _ _ _ Hval).
Qed.

(** X3. A rendering does not change: if [str(v)] returns [s] in a state
    the client can reach, it returns [s] after any further calls, and with
    any larger recursion depth left. *)
Theorem rendering_is_stable (st st1 : state) (v : pyval) (d : nat) (s : string) :
  reachable st → py_str d v st = (Returned s, st1) →
  ∀ (calls : list api_call) (d' : nat), (d ≤ d')%nat →
    py_str d' v (run_calls calls st) = (Returned s, run_calls calls st).
Proof.
  intros Hst Hs calls d' Hd.
  eapply py_str_transfer; [exact Hd | apply extends_run_calls | | exact Hs].
  by apply mro_closed_reachable.
Qed.

(** ** Outcomes beside and inside one another *)

(** X4. Two outcomes built from the same value are two objects that
    behave alike: [Ok(v)] twice returns different references, both are
    ok, both unwrap to [v], and both render as the same string. *)
Theorem equal_values_distinct_outcomes (st : state) (v : pyval) (d : nat) :
  live st v →
  ∃ o1 st1 o2 st2,
    Ok v st = (Returned o1, st1) ∧ Ok v st1 = (Returned o2, st2) ∧
    o1 ≠ o2 ∧
    unwrap d o1 st2 = (Returned v, st2) ∧ unwrap d o2 st2 = (Returned v, st2) ∧
    is_ok o1 st2 = (Returned true, st2) ∧ is_ok o2 st2 = (Returned true, st2) ∧
    ∀ s, py_str d v st2 = (Returned s, st2) →
         py_str (S (S d)) o1 st2 = (Returned ("Ok(" +:+ s +:+ ")"), st2) ∧
         py_str (S (S d)) o2 st2 = (Returned ("Ok(" +:+ s +:+ ")"), st2).
Proof.
  intros [t Ht].
  set (st1 := set_heap (heap st ++ [built OK v t]) st).
  assert (Ht1 : type_of st1 v = Some t) by by apply type_of_grow.
  set (st2 := set_heap (heap st1 ++ [built OK v t]) st1).
  exists (VRef (length (heap st))), st1, (VRef (length (heap st1))), st2.
  assert (H1 : heap st2 !! length (heap st) = Some (built OK v t)).
  { unfold st2. simpl. by apply lookup_app_l_Some, list_lookup_middle. }
  assert (H2 : heap st2 !! length (heap st1) = Some (built OK v t))
    by apply built_lookup.
  destruct (built_anywhere _ _ _ _ _ H1) as (Hty1 & Hval1 & _).
  destruct (built_anywhere _ _ _ _ _ H2) as (Hty2 & Hval2 & _).
  split; [by apply Ok_spec|]. split; [by apply Ok_spec|]. split.
  { intros [= Heq]. unfold st1 in Heq. simpl in Heq. rewrite length_app in Heq.
    simpl in Heq. lia. }
  split; [by rewrite (unwrap_not_ERROR d _ _ _ Hty1)|].
  split; [by rewrite (unwrap_not_ERROR d _ _ _ Hty2)|].
  split; [by rewrite (is_ok_spec _ _ _ Hty1)|].
  split; [by rewrite (is_ok_spec _ _ _ Hty2)|].
  intros s Hs. split; by eapply py_str_OK_anywhere.
Qed.

(** X5. Outcomes nest: [Ok(Error(v))] is ok, records that it holds an
    [ERROR], unwraps to the inner outcome, which is still an error, and
    renders as ["Ok(Error(" + str(v) + "))"]. *)
Theorem nested_outcome (st : state) (v : pyval) (d : nat) :
  live st v →
  ∃ inner st1 outer st2,
    Error v st = (Returned inner, st1) ∧ Ok inner st1 = (Returned outer, st2) ∧
    is_ok outer st2 = (Returned true, st2) ∧
    getattr outer "type" st2 = (Returned (VType (ty_class ERROR)), st2) ∧
    unwrap d outer st2 = (Returned inner, st2) ∧
    is_error inner st2 = (Returned true, st2) ∧
    ∀ s, py_str d v st2 = (Returned s, st2) →
         py_str (S (S (S (S d)))) outer st2
         = (Returned ("Ok(" +:+ ("Error(" +:+ s +:+ ")") +:+ ")"), st2).
Proof.
  intros [t Ht].
  set (st1 := set_heap (heap st ++ [built ERROR v t]) st).
  set (inner := VRef (length (heap st))).
  assert (Hin : type_of st1 inner = Some (ty_class ERROR))
    by apply (built_facts st ERROR v t).
  set (st2 := set_heap (heap st1 ++ [built OK inner (ty_class ERROR)]) st1).
  exists inner, st1, (VRef (length (heap st1))), st2. subst inner.
  assert (H1 : heap st2 !! length (heap st) = Some (built ERROR v t)).
  { unfold st2. simpl. by apply lookup_app_l_Some, list_lookup_middle. }
  assert (H2 : heap st2 !! length (heap st1)
               = Some (built OK (VRef (length (heap st))) (ty_class ERROR)))
    by apply built_lookup.
  destruct (built_anywhere _ _ _ _ _ H1) as (Hty1 & Hval1 & _).
  destruct (built_anywhere _ _ _ _ _ H2) as (Hty2 & Hval2 & Htype2).
  split; [by apply Error_spec|]. split; [by apply Ok_spec|].
  split; [by rewrite (is_ok_spec _ _ _ Hty2)|]. split; [done|].
  split; [by rewrite (unwrap_not_ERROR d _ _ _ Hty2)|].
  split; [by rewrite (is_error_spec _ _ _ Hty1)|].
  intros s Hs. eapply py_str_OK_anywhere; [exact H2|].
  by eapply py_str_ERROR_anywhere.
Qed.

(** X6. [Ok] and [Error] record the type of what they hold: the
    attribute [type] of the outcome is [type(v)]. *)
Theorem outcome_records_type (st : state) (v : pyval) (t : pytype) :
  type_of st v = Some t →
  (∃ o st', Ok v st = (Returned o, st') ∧
            getattr o "type" st' = (Returned (VType t), st')) ∧
  (∃ o st', Error v st = (Returned o, st') ∧
            getattr o "type" st' = (Returned (VType t), st')).
Proof.
  intros Ht. split; eexists _, _.
  - split; [by apply Ok_spec|]. by apply (built_anywhere _ _ OK v t), built_lookup.
  - split; [by apply Error_spec|]. by apply (built_anywhere _ _ ERROR v t), built_lookup.
Qed.

(** ** Instances that are not outcomes *)

(** X7. A bare instance of [Result] renders as ["Result<>"], the default
    value being the empty string; its attribute [type] is [None], and it
    is neither ok nor an error. *)
Theorem bare_Result_renders (st : state) (d : nat) :
  ∃ o st', instantiate Result [] st = (Returned o, st') ∧
           py_str (S (S d)) o st' = (Returned "Result<>", st') ∧
           getattr o "type" st' = (Returned VNone, st') ∧
           is_ok o st' = (Returned false, st') ∧
           is_error o st' = (Returned false, st').
Proof.
  destruct (bare_Result st) as (Hnew & Hty & Hval). eexists _, _.
  split; [exact Hnew|].
  set (st' := set_heap (heap st ++ [Object Result ∅]) st) in *.
  assert (Ho : heap st' !! length (heap st) = Some (Object Result ∅))
    by by apply list_lookup_middle.
  split; [|split; [|split]].
  - rewrite (py_str_Result d _ _ _ Ho eq_refl) by done.
    by rewrite (bind_Returned _ _ _ _ _ Hval).
  - by eapply getattr_class.
  - by rewrite (is_ok_spec _ _ _ Hty).
  - by rewrite (is_error_spec _ _ _ Hty).
Qed.

(** X8. An instance of [ErrorType] itself renders as the empty string
    and has no attribute [name]; wrapped, it renders as ["Error()"]. *)
Theorem ErrorType_instance (st : state) (d : nat) :
  ∃ e st1, instantiate ErrorType [] st = (Returned e, st1) ∧
    py_str (S d) e st1 = (Returned "", st1) ∧
    getattr e "name" st1 = (Raised (AttributeError "name"), st1) ∧
    ∃ o st2, Error e st1 = (Returned o, st2) ∧
             py_str (S (S (S d))) o st2 = (Returned "Error()", st2).
Proof.
  set (st1 := set_heap (heap st ++ [Object ErrorType ∅]) st).
  assert (He : heap st1 !! length (heap st) = Some (Object ErrorType ∅))
    by by apply list_lookup_middle.
  exists (VRef (length (heap st))), st1. split.
  { by eapply instantiate_plain; [apply class_of_module|]. }
  split; [by eapply py_str_ErrorType|]. split.
  { unfold getattr. by rewrite He. }
  assert (Hty : type_of st1 (VRef (length (heap st))) = Some (ty_class ErrorType))
    by by rewrite (type_of_ref _ _ _ He).
  set (st2 := set_heap (heap st1 ++ [built ERROR (VRef (length (heap st))) (ty_class ErrorType)]) st1).
  exists (VRef (length (heap st1))), st2. split; [by apply Error_spec|].
  eapply (py_str_ERROR_anywhere (S d) st2 _ (VRef (length (heap st))) _ ""); [apply built_lookup|].
  eapply py_str_ErrorType; [unfold st2; simpl; by apply lookup_app_l_Some | done].
Qed.

(** X9. [is_ok] and [is_error] never raise on a value of the store and
    are never both true; on a value that is not an instance (a number, a
    string, [None], a class) both are false. *)
Theorem is_ok_is_error_exclusive (st : state) (v : pyval) :
  live st v →
  ∃ a b, is_ok v st = (Returned a, st) ∧ is_error v st = (Returned b, st) ∧
         ¬ (a = true ∧ b = true) ∧
         ((∀ o, v ≠ VRef o) → a = false ∧ b = false).
Proof.
  intros [t Ht]. eexists _, _.
  split; [by apply is_ok_spec|]. split; [by apply is_error_spec|]. split.
  - intros [H1 H2]. apply bool_decide_eq_true in H1, H2. by subst.
  - intros Hv. destruct v; try (simpl in Ht; injection Ht as <-; by split).
    by destruct (Hv o).
Qed.

(** X10. [unwrap] and [match] do not check that they are given an
    outcome: on a number, a string, [None], a builtin type or a function
    they raise [AttributeError] for [value], and [match] calls neither
    handler. *)
Theorem unwrap_plain_value {R : Type} (st : state) (v : pyval) (d : nat)
    (f g : pyval → M R) :
  plain v →
  unwrap d v st = (Raised (AttributeError "value"), st) ∧
  Result_match v f g st = (Raised (AttributeError "value"), st).
Proof.
  intros Hv.
  assert (Hty : ∃ t, type_of st v = Some t ∧ t ≠ ty_class ERROR ∧ t ≠ ty_class OK)
    by (destruct v; try done; by eexists).
  destruct Hty as (t & Hty & Hne1 & Hne2).
  assert (Hget : getattr v "value" st = (Raised (AttributeError "value"), st))
    by (destruct v as [| | | |[]| |]; done).
  split.
  - by rewrite (unwrap_not_ERROR d _ _ _ Hty Hne1).
  - rewrite (match_not_OK _ _ _ _ _ Hty Hne2).
    by rewrite (bind_Raised _ _ _ _ _ Hget).
Qed.

(** X11. The classes check the number of arguments: [OK] and [ERROR]
    take exactly one, [Result] and [ErrorType] none; anything else raises
    [TypeError]. *)
Theorem wrong_number_of_arguments (st : state) (args : list pyval) :
  (length args ≠ 1 →
     (instantiate OK args st).1 = Raised TypeError ∧
     (instantiate ERROR args st).1 = Raised TypeError) ∧
  (length args ≠ 0 →
     (instantiate Result args st).1 = Raised TypeError ∧
     (instantiate ErrorType args st).1 = Raised TypeError).
Proof.
  split; intros Hlen.
  - destruct args as [|a [|b args]]; by try (simpl in Hlen; lia).
  - destruct args as [|a args]; by try (simpl in Hlen; lia).
Qed.

(** X12. An instance of an error kind is not an outcome until it is
    wrapped: for the class [to_error] returns (the name being one [type]
    takes), the instance is neither an error nor ok, [unwrap] on it raises
    [AttributeError] for [value], and the class takes no arguments. *)
Theorem error_kind_is_not_an_outcome (st : state) (name explanation : string)
    (d : nat) :
  class_name_ok name = true →
  ∃ c st1, to_error name explanation st = (Returned (VType (ty_class c)), st1) ∧
    (∀ a args, (instantiate c (a :: args) st1).1 = Raised TypeError) ∧
    ∃ x st2, instantiate c [] st1 = (Returned x, st2) ∧
      is_error x st2 = (Returned false, st2) ∧
      is_ok x st2 = (Returned false, st2) ∧
      unwrap d x st2 = (Raised (AttributeError "value"), st2) ∧
      ∃ o st3, Error x st2 = (Returned o, st3) ∧
               is_error o st3 = (Returned true, st3).
Proof.
  intros Hok.
  destruct (kind_lookup st name explanation) as (Hrepr & Hstr & Hname & Hinit).
  set (c := length (classes st)) in *.
  set (st1 := add_class (kind_class name explanation c) st) in *.
  assert (Hc : class_of st1 c = Some (kind_class name explanation c))
    by apply class_of_added.
  exists c, st1. split; [by apply to_error_spec|]. split.
  { intros a args. unfold instantiate.
    rewrite (bind_Returned _ _ st1 (Some (VFun fn_object_init)) st1).
    - done.
    - apply read_Some. by rewrite Hc; simpl; rewrite Hinit. }
  set (st2 := set_heap (heap st1 ++ [Object c ∅]) st1).
  assert (Ho : heap st2 !! length (heap st1) = Some (Object c ∅))
    by by apply list_lookup_middle.
  assert (Hty : type_of st2 (VRef (length (heap st1))) = Some (ty_class c))
    by by rewrite (type_of_ref _ _ _ Ho).
  assert (Hc5 : ty_class c ≠ ty_class ERROR ∧ ty_class c ≠ ty_class OK).
  { unfold c, classes. rewrite length_app. simpl. unfold ERROR, OK.
    split; intros [= H]; lia. }
  exists (VRef (length (heap st1))), st2.
  split; [by eapply instantiate_plain|].
  split; [rewrite (is_error_spec _ _ _ Hty); by rewrite bool_decide_false|].
  split; [rewrite (is_ok_spec _ _ _ Hty); by rewrite bool_decide_false|].
  split.
  - rewrite (unwrap_not_ERROR d _ _ _ Hty) by apply Hc5.
    unfold getattr. rewrite Ho. simpl.
    unfold st2. rewrite class_lookup_set_heap.
    unfold class_lookup. rewrite Hc. simpl. rewrite Hc. simpl.
    by simplify_map_eq.
  - eexists _, _. split; [by apply Error_spec|].
    destruct (built_facts st2 ERROR (VRef (length (heap st1))) (ty_class c)) as [Hty' _].
    by rewrite (is_error_spec _ _ _ Hty').
Qed.

(** X13. Looking at a value changes nothing: [unwrap], [is_ok],
    [is_error] and string rendering leave the store exactly as it is,
    whether they return or raise, and [match] changes only what the
    handler it calls changes. *)
Theorem inspection_changes_nothing {R : Type} (st : state) (v : pyval) (d : nat)
    (f g : pyval → M R) :
  (unwrap d v st).2 = st ∧
  (is_ok v st).2 = st ∧
  (is_error v st).2 = st ∧
  (py_str d v st).2 = st ∧
  ((Result_match v f g st).2 = st ∨
   ∃ x, (Result_match v f g st).2 = (f x st).2 ∨
        (Result_match v f g st).2 = (g x st).2).
Proof.
  split; [apply readonly_unwrap|]. split; [apply readonly_is_ok|].
  split; [apply readonly_is_error|]. split; [apply readonly_py_str|].
  pose proof (readonly_getattr v "value" st) as Hro.
  destruct (type_of st v) as [t|] eqn:Hty.
  - destruct (getattr v "value" st) as [[x|e] st'] eqn:Hget;
      simpl in Hro; subst st'.
    + right. exists x. destruct (decide (t = ty_class OK)) as [->|Hne].
      * left. by rewrite (match_OK _ _ _ _ Hty), (bind_Returned _ _ _ _ _ Hget).
      * right. by rewrite (match_not_OK _ _ _ _ _ Hty Hne), (bind_Returned _ _ _ _ _ Hget).
    + left. destruct (decide (t = ty_class OK)) as [->|Hne].
      * by rewrite (match_OK _ _ _ _ Hty), (bind_Raised _ _ _ _ _ Hget).
      * by rewrite (match_not_OK _ _ _ _ _ Hty Hne), (bind_Raised _ _ _ _ _ Hget).
  - left. unfold Result_match.
    rewrite (bind_Raised _ _ st SystemError st); [done|].
    unfold py_type, read. by rewrite Hty.
Qed.

(** ** These properties at concrete inputs *)

Lemma store_never_changes_witness :
  heap divide_state !! 1 = Some (built ERROR (VRef 0) (ty_class 5)) ∧
  ∀ calls, heap (run_calls calls divide_state) !! 1
           = Some (built ERROR (VRef 0) (ty_class 5)).
Proof.
  assert (H : heap divide_state !! 1 = Some (built ERROR (VRef 0) (ty_class 5)))
    by (vm_compute; reflexivity).
  exact (conj H (λ calls, proj1 (store_never_changes divide_state calls) 1 _ H)).
Defined.

Lemma outcome_keeps_value_witness :
  let f : pyval → M pyval := ret in
  let g : pyval → M pyval := λ _, ret (VStr "Error") in
  live divide_state (VRef 0) ∧
  (∃ o st', Ok (VRef 0) divide_state = (Returned o, st') ∧
     let st2 := run_calls divide_calls st' in
     unwrap 4 o st2 = (Returned (VRef 0), st2) ∧
     is_ok o st2 = (Returned true, st2) ∧
     Result_match o f g st2 = f (VRef 0) st2) ∧
  (∃ o st', Error (VRef 0) divide_state = (Returned o, st') ∧
     let st2 := run_calls divide_calls st' in
     (∃ x, unwrap 4 o st2 = (Raised x, st2)) ∧
     is_error o st2 = (Returned true, st2) ∧
     Result_match o f g st2 = g (VRef 0) st2).
Proof.
  assert (H : live divide_state (VRef 0)) by (exists (ty_class 5); reflexivity).
  exact (conj H (outcome_keeps_value divide_state (VRef 0) divide_calls 4
                   ret (λ _, ret (VStr "Error")) H)).
Defined.

Lemma rendering_is_stable_witness :
  reachable divide_state ∧
  py_str 4 (VRef 1) divide_state
  = (Returned "Error(DivideByZeroError, Cannot divide by zero)", divide_state) ∧
  ∀ (calls : list api_call) (d' : nat), (4 ≤ d')%nat →
    py_str d' (VRef 1) (run_calls calls divide_state)
    = (Returned "Error(DivideByZeroError, Cannot divide by zero)",
       run_calls calls divide_state).
Proof.
  assert (H : py_str 4 (VRef 1) divide_state
              = (Returned "Error(DivideByZeroError, Cannot divide by zero)",
                 divide_state)) by (vm_compute; reflexivity).
  exact (conj reachable_divide_state
           (conj H (rendering_is_stable divide_state divide_state (VRef 1) 4 _
                      reachable_divide_state H))).
Defined.

Lemma equal_values_distinct_outcomes_witness :
  live start (VInt 1) ∧
  ∃ o1 st1 o2 st2,
    Ok (VInt 1) start = (Returned o1, st1) ∧ Ok (VInt 1) st1 = (Returned o2, st2) ∧
    o1 ≠ o2 ∧
    unwrap 0 o1 st2 = (Returned (VInt 1), st2) ∧
    unwrap 0 o2 st2 = (Returned (VInt 1), st2) ∧
    is_ok o1 st2 = (Returned true, st2) ∧ is_ok o2 st2 = (Returned true, st2) ∧
    ∀ s, py_str 0 (VInt 1) st2 = (Returned s, st2) →
         py_str 2 o1 st2 = (Returned ("Ok(" +:+ s +:+ ")"), st2) ∧
         py_str 2 o2 st2 = (Returned ("Ok(" +:+ s +:+ ")"), st2).
Proof.
  assert (H : live start (VInt 1)) by (exists ty_int; reflexivity).
  exact (conj H (equal_values_distinct_outcomes start (VInt 1) 0 H)).
Defined.

Lemma nested_outcome_witness :
  live start (VStr "late") ∧
  ∃ inner st1 outer st2,
    Error (VStr "late") start = (Returned inner, st1) ∧
    Ok inner st1 = (Returned outer, st2) ∧
    is_ok outer st2 = (Returned true, st2) ∧
    getattr outer "type" st2 = (Returned (VType (ty_class ERROR)), st2) ∧
    unwrap 0 outer st2 = (Returned inner, st2) ∧
    is_error inner st2 = (Returned true, st2) ∧
    ∀ s, py_str 0 (VStr "late") st2 = (Returned s, st2) →
         py_str 4 outer st2
         = (Returned ("Ok(" +:+ ("Error(" +:+ s +:+ ")") +:+ ")"), st2).
Proof.
  assert (H : live start (VStr "late")) by (exists ty_str; reflexivity).
  exact (conj H (nested_outcome start (VStr "late") 0 H)).
Defined.

Lemma outcome_records_type_witness :
  type_of divide_state (VRef 0) = Some (ty_class 5) ∧
  (∃ o st', Ok (VRef 0) divide_state = (Returned o, st') ∧
            getattr o "type" st' = (Returned (VType (ty_class 5)), st')) ∧
  (∃ o st', Error (VRef 0) divide_state = (Returned o, st') ∧
            getattr o "type" st' = (Returned (VType (ty_class 5)), st')).
Proof.
  assert (H : type_of divide_state (VRef 0) = Some (ty_class 5)) by reflexivity.
  exact (conj H (outcome_records_type divide_state (VRef 0) (ty_class 5) H)).
Defined.

Lemma is_ok_is_error_exclusive_witness :
  live divide_state (VRef 1) ∧
  ∃ a b, is_ok (VRef 1) divide_state = (Returned a, divide_state) ∧
         is_error (VRef 1) divide_state = (Returned b, divide_state) ∧
         ¬ (a = true ∧ b = true) ∧
         ((∀ o, VRef 1 ≠ VRef o) → a = false ∧ b = false).
Proof.
  assert (H : live divide_state (VRef 1)) by (exists (ty_class ERROR); reflexivity).
  exact (conj H (is_ok_is_error_exclusive divide_state (VRef 1) H)).
Defined.

Lemma unwrap_plain_value_witness :
  let f : pyval → M pyval := ret in
  plain (VInt 5) ∧
  unwrap 3 (VInt 5) start = (Raised (AttributeError "value"), start) ∧
  Result_match (VInt 5) f f start = (Raised (AttributeError "value"), start).
Proof.
  exact (conj I (unwrap_plain_value start (VInt 5) 3 ret ret I)).
Defined.

Lemma wrong_number_of_arguments_witness :
  length (@nil pyval) ≠ 1 ∧
  (instantiate OK [] start).1 = Raised TypeError ∧
  (instantiate ERROR [] start).1 = Raised TypeError.
Proof.
  assert (H : length (@nil pyval) ≠ 1) by (simpl; lia).
  exact (conj H (proj1 (wrong_number_of_arguments start []) H)).
Defined.

(** ** Names [type] refuses *)

Lemma to_error_kind_witness :
  class_name_ok "X" = true ∧
  ∃ c st1,
    to_error "X" "bad thing" start = (Returned (VType (ty_class c)), st1) ∧
    type_of st1 (VType (ty_class c)) = Some ty_type ∧
    (∃ k, class_of st1 c = Some k ∧ cls_name k = "X" ∧ ErrorType ∈ cls_mro k) ∧
    getattr (VType (ty_class c)) "name" st1 = (Returned (VStr "X"), st1) ∧
    ∃ x st2,
      instantiate c [] st1 = (Returned x, st2) ∧
      type_of st2 x = Some (ty_class c) ∧
      py_str 2 x st2 = (Returned ("X" +:+ ", " +:+ "bad thing"), st2) ∧
      getattr x "name" st2 = (Returned (VStr "X"), st2).
Proof.
  assert (H : class_name_ok "X" = true) by reflexivity.
  exact (conj H (to_error_kind start "X" "bad thing" 0 H)).
Defined.

(** C7, as the specification words it, fails on the code: for the name
    "a\0b" [to_error] returns no type, it raises [ValueError]. *)
Lemma to_error_refuses_nul_name :
  to_error nul_name "bad thing" start = (Raised ValueError, start) ∧
  ¬ ∃ c st1, to_error nul_name "bad thing" start = (Returned (VType (ty_class c)), st1).
Proof. split; [reflexivity|]. by intros (c & st1 & H). Qed.

Lemma to_error_always_new_witness :
  class_name_ok "DivideByZeroError" = true ∧
  ∃ c st1,
    to_error "DivideByZeroError" "Cannot divide by zero" start
    = (Returned (VType (ty_class c)), st1) ∧
    class_of start c = None ∧
    ∀ (calls : list api_call) (name' explanation' : string),
      class_name_ok name' = true →
      ∃ c' st2,
        to_error name' explanation' (run_calls calls st1)
        = (Returned (VType (ty_class c')), st2) ∧
        c' ≠ c.
Proof.
  assert (H : class_name_ok "DivideByZeroError" = true) by reflexivity.
  exact (conj H (proj2 (to_error_always_new start "DivideByZeroError"
                          "Cannot divide by zero") H)).
Defined.

(** C8, as the specification words it, fails on the code: [to_error] has
    failure conditions. In a state with classes and outcomes in it, the
    name "a\0b" raises [ValueError] and a name that is a surrogate alone
    raises [UnicodeEncodeError]; neither call returns. *)
Lemma to_error_has_failure_conditions :
  to_error nul_name "Cannot divide by zero" divide_state
  = (Raised ValueError, divide_state) ∧
  to_error surrogate_name "Cannot divide by zero" divide_state
  = (Raised UnicodeEncodeError, divide_state).
Proof. split; reflexivity. Qed.

Lemma error_kind_is_not_an_outcome_witness :
  class_name_ok "DivideByZeroError" = true ∧
  ∃ c st1,
    to_error "DivideByZeroError" "Cannot divide by zero" start
    = (Returned (VType (ty_class c)), st1) ∧
    (∀ a args, (instantiate c (a :: args) st1).1 = Raised TypeError) ∧
    ∃ x st2, instantiate c [] st1 = (Returned x, st2) ∧
      is_error x st2 = (Returned false, st2) ∧
      is_ok x st2 = (Returned false, st2) ∧
      unwrap 3 x st2 = (Raised (AttributeError "value"), st2) ∧
      ∃ o st3, Error x st2 = (Returned o, st3) ∧
               is_error o st3 = (Returned true, st3).
Proof.
  assert (H : class_name_ok "DivideByZeroError" = true) by reflexivity.
  exact (conj H (error_kind_is_not_an_outcome start "DivideByZeroError"
                   "Cannot divide by zero" 3 H)).
Defined.
